(** * Power Platform Utility: the command runner, the PAC CLI facade and the
    environment directory, embedded in Rocq.

    The development follows [src/core/pac_cli.py] and
    [src/core/environment.py].  Python values that reach the program from
    decoded JSON are kept dynamically typed ([pyval]); exceptions are explicit
    ([result]); what the operating system and the CPython library decide
    (the outcome of a child process, [json.loads], [datetime.strptime],
    [str.lower]) is a parameter of the model ([Runtime]). *)

From Stdlib Require Import ZArith List String Ascii Bool Lia.
From Stdlib Require Import Floats.SpecFloat.
Import ListNotations.

Set Warnings "-register-all".

Local Open Scope string_scope.
Local Open Scope list_scope.
Local Open Scope Z_scope.

(* ================================================================== *)
(** ** Python values and exceptions *)
(* ================================================================== *)

Module Py.

(** The values [json.loads] can produce, plus nothing else: the program
    never builds other dynamic values.  A [PyDict] lists its entries in
    insertion order; a decoded dict has pairwise distinct keys. *)
Inductive pyval : Type :=
| PyNone
| PyBool (b : bool)
| PyInt (z : Z)
| PyFloat (f : spec_float)
| PyStr (s : string)
| PyList (items : list pyval)
| PyDict (entries : list (string * pyval)).

(** Instances of [Exception] the modelled code can meet.  Every handler
    written [except Exception] catches all of them. *)
Inductive exn : Type :=
| TypeError
| AttributeError
| ValueError
| JSONDecodeError
| RecursionError
| FileNotFoundError
| PermissionError
| OSError.

(** A computation that returns or raises. *)
Inductive result (A : Type) : Type :=
| Ok (a : A)
| Raise (e : exn).

Arguments Ok {A} a.
Arguments Raise {A} e.

Definition bind {A B : Type} (c : result A) (k : A -> result B) : result B :=
  match c with
  | Ok a => k a
  | Raise e => Raise e
  end.

(** [try: c except Exception: h] *)
Definition try_except {A : Type} (c : result A) (h : exn -> A) : A :=
  match c with
  | Ok a => a
  | Raise e => h e
  end.

(** Truth value testing ([not v], [v or w], [if v]). *)
Definition truthy (v : pyval) : bool :=
  match v with
  | PyNone => false
  | PyBool b => b
  | PyInt z => negb (z =? 0)
  | PyFloat f => match f with S754_zero _ => false | _ => true end
  | PyStr s => negb (String.eqb s "")
  | PyList items => match items with [] => false | _ => true end
  | PyDict entries => match entries with [] => false | _ => true end
  end.

(** [a or b] *)
Definition py_or (a b : pyval) : pyval := if truthy a then a else b.

(** [d.get(key, default)] on a dict's entries. *)
Fixpoint dict_get (entries : list (string * pyval)) (key : string)
         (default : pyval) : pyval :=
  match entries with
  | [] => default
  | (k, v) :: rest => if String.eqb k key then v else dict_get rest key default
  end.

(** [v.get(key, default)]: only a dict has the method. *)
Definition py_get (v : pyval) (key : string) (default : pyval) : result pyval :=
  match v with
  | PyDict entries => Ok (dict_get entries key default)
  | _ => Raise AttributeError
  end.

(** The one-character strings of a string, as [for c in s] yields them. *)
Fixpoint chars (s : string) : list pyval :=
  match s with
  | EmptyString => []
  | String c rest => PyStr (String c EmptyString) :: chars rest
  end.

(** [for x in v]: the elements a [for] loop visits, or [TypeError] when
    the value is not iterable. *)
Definition py_iter (v : pyval) : result (list pyval) :=
  match v with
  | PyList items => Ok items
  | PyDict entries => Ok (map (fun kv => PyStr (fst kv)) entries)
  | PyStr s => Ok (chars s)
  | _ => Raise TypeError
  end.

(** The strings of a list, as [' '.join(l)] requires them: a non-string
    item raises [TypeError]. *)
Fixpoint str_items (l : list pyval) : result (list string) :=
  match l with
  | [] => Ok []
  | PyStr s :: rest => bind (str_items rest) (fun ss => Ok (s :: ss))
  | _ :: _ => Raise TypeError
  end.

(** [needle in hay] on strings. *)
Fixpoint starts_with (needle hay : string) : bool :=
  match needle, hay with
  | EmptyString, _ => true
  | String a n', String b h' => Ascii.eqb a b && starts_with n' h'
  | String _ _, EmptyString => false
  end.

Fixpoint str_in (needle hay : string) : bool :=
  starts_with needle hay ||
  match hay with
  | EmptyString => false
  | String _ h' => str_in needle h'
  end.

End Py.
Export Py.

Notation "x <- c ;; k" := (bind c (fun x => k))
  (at level 61, c at next level, right associativity).

(* ================================================================== *)
(** ** What the platform decides *)
(* ================================================================== *)

(** A naive [datetime]. *)
Record datetime : Type := mk_datetime {
  year : Z; month : Z; day : Z;
  hour : Z; minute : Z; second : Z; microsecond : Z
}.

(** How [subprocess.run(args, capture_output=True, text=True, timeout=t)]
    ends: the child exits, the timeout expires, or the call itself raises
    (the executable is missing, say). *)
Inductive ProcOutcome : Type :=
| Completed (returncode : Z) (out err : string)
| TimeoutExpired
| ProcessError (e : exn).

Record Runtime : Type := {
  (** [subprocess.run] on an argument vector with a timeout in seconds *)
  subprocess_run : list string -> Z -> ProcOutcome;
  (** [json.loads] on text *)
  json_loads : string -> result pyval;
  (** [datetime.strptime(text, format)] on text *)
  strptime : string -> string -> result datetime;
  (** [str.lower] *)
  str_lower : string -> string
}.

(* ================================================================== *)
(** ** [src/core/pac_cli.py] *)
(* ================================================================== *)

Module PACCLIWrapper.

(** The dict [run_command] returns. *)
Record CommandResult : Type := {
  success : bool;
  stdout : string;
  stderr : string;
  returncode : Z;
  command : string
}.

Definition default_timeout : Z := 30.

(** How [PACCLIWrapper()] ends: the object is built, [PACCLIError] is raised
    with a message, or another exception goes through. *)
Inductive construction : Type :=
| Constructed
| PACCLIError (message : string)
| Propagated (e : exn).

Section Wrapper.
Variable rt : Runtime.

(** [run_command(command, timeout=30)].  The debug line joins the full
    command before the process is started, so a non-string argument raises
    there. *)
Definition run_command (command : list pyval) (timeout : option Z)
  : result CommandResult :=
  let timeout := match timeout with Some t => t | None => default_timeout end in
  let full_command := PyStr "pac" :: command in
  args <- str_items full_command ;;
  match subprocess_run rt args timeout with
  | Completed rc out err =>
      Ok {| success := rc =? 0;
            stdout := out;
            stderr := err;
            returncode := rc;
            command := String.concat " " args |}
  | TimeoutExpired =>
      Ok {| success := false;
            stdout := "";
            stderr := "Command timed out";
            returncode := -1;
            command := String.concat " " args |}
  | ProcessError e => Raise e
  end.

(** [try: json.loads(text) except json.JSONDecodeError: fallback] *)
Definition loads_or (text : string) (fallback : pyval) : result pyval :=
  match json_loads rt text with
  | Ok v => Ok v
  | Raise JSONDecodeError => Ok fallback
  | Raise e => Raise e
  end.

Definition get_environments : result pyval :=
  result <- run_command [PyStr "org"; PyStr "list"; PyStr "--json"] None ;;
  if success result then loads_or (stdout result) (PyList [])
  else Ok (PyList []).

Definition select_environment (environment_url : pyval) : result bool :=
  result <- run_command
              [PyStr "org"; PyStr "select"; PyStr "--environment"; environment_url]
              None ;;
  if success result then Ok true else Ok false.

Definition get_solutions : result pyval :=
  result <- run_command [PyStr "solution"; PyStr "list"; PyStr "--json"] None ;;
  if success result then loads_or (stdout result) (PyList [])
  else Ok (PyList []).

(** The local [command] of [export_solution] when [run_command] is called. *)
Definition export_command (solution_name output_path : string) (managed : bool)
  : list string :=
  let command := ["solution"; "export";
                  "--name"; solution_name;
                  "--path"; output_path] in
  if managed then command ++ ["--managed"] else command.

Definition export_timeout : Z := 300.

Definition export_solution (solution_name output_path : string) (managed : bool)
  : result bool :=
  result <- run_command (map PyStr (export_command solution_name output_path managed))
              (Some export_timeout) ;;
  if success result then Ok true else Ok false.

(** The local [command] of [import_solution] when [run_command] is called. *)
Definition import_command (solution_path : string) (publish_workflows : bool)
  : list string :=
  let command := ["solution"; "import";
                  "--path"; solution_path] in
  if publish_workflows then command ++ ["--publish-changes"] else command.

Definition import_timeout : Z := 600.

Definition import_solution (solution_path : string) (publish_workflows : bool)
  : result bool :=
  result <- run_command (map PyStr (import_command solution_path publish_workflows))
              (Some import_timeout) ;;
  if success result then Ok true else Ok false.

Definition get_current_environment : result pyval :=
  result <- run_command [PyStr "org"; PyStr "who"; PyStr "--json"] None ;;
  if success result then loads_or (stdout result) PyNone
  else Ok PyNone.

Definition authenticate : result bool :=
  result <- run_command [PyStr "auth"; PyStr "create"] None ;;
  if success result then Ok true else Ok false.


(** [_check_pac_installation], which is all [__init__] does besides taking
    a logger.  The [PACCLIError] raised in the [try] block for a non-zero
    exit code is not one of the two exceptions the handlers name, so it
    goes through as it is. *)
Definition _check_pac_installation : construction :=
  match subprocess_run rt ["pac"; "--version"] 10 with
  | Completed rc out err =>
      if rc =? 0 then Constructed
      else PACCLIError "PAC CLI not found or not accessible"
  | TimeoutExpired => PACCLIError "PAC CLI command timed out"
  | ProcessError FileNotFoundError =>
      PACCLIError "PAC CLI not installed. Please install Power Platform CLI first."
  | ProcessError e => Propagated e
  end.

End Wrapper.

End PACCLIWrapper.

(* ================================================================== *)
(** ** [src/core/environment.py] *)
(* ================================================================== *)

Module Environment.

(** The dataclass.  Its annotations are not enforced: [refresh_environments]
    stores whatever the decoded record holds, so the fields are [pyval]. *)
Record PowerPlatformEnvironment : Type := {
  name : pyval;
  display_name : pyval;
  url : pyval;
  region : pyval;
  environment_type : pyval;
  state : pyval;
  created_time : option datetime
}.

(** What [EnvironmentManager] asks of the wrapper it is given, as one call of
    each method answers (every method below calls the wrapper at most once). *)
Record PacCli : Type := {
  cli_get_environments : result pyval;
  cli_select_environment : pyval -> result bool
}.

(** The wrapper of [pac_cli.py] on a given platform. *)
Definition wrapper_cli (rt : Runtime) : PacCli :=
  {| cli_get_environments := PACCLIWrapper.get_environments rt;
     cli_select_environment := PACCLIWrapper.select_environment rt |}.

(** A list object: [list_id] tells the list objects of one manager apart
    (the one made by [__init__] is number 0, each [self._environments = []]
    makes the next one), [list_items] is what it holds. *)
Record list_obj : Type := {
  list_id : nat;
  list_items : list PowerPlatformEnvironment
}.

(** The attributes of an [EnvironmentManager] that change. *)
Record EnvironmentManager : Type := {
  _environments : list_obj;
  _current_environment : option PowerPlatformEnvironment
}.

(** [__init__] *)
Definition init : EnvironmentManager :=
  {| _environments := {| list_id := 0; list_items := [] |};
     _current_environment := None |}.

(** Code that reads and writes the manager and may raise; what was written
    before an exception stays written. *)
Definition M (A : Type) : Type :=
  EnvironmentManager -> result A * EnvironmentManager.

Definition ret {A : Type} (a : A) : M A := fun self => (Ok a, self).

Definition bindM {A B : Type} (c : M A) (k : A -> M B) : M B :=
  fun self =>
    match c self with
    | (Ok a, self') => k a self'
    | (Raise e, self') => (Raise e, self')
    end.

Definition lift {A : Type} (c : result A) : M A := fun self => (c, self).

(** [try: c except Exception as e: h e] *)
Definition catch {A : Type} (c : M A) (h : exn -> M A) : M A :=
  fun self =>
    match c self with
    | (Ok a, self') => (Ok a, self')
    | (Raise e, self') => h e self'
    end.

Notation "x <~ c ;; k" := (bindM c (fun x => k))
  (at level 61, c at next level, right associativity).
Notation "c ;;; k" := (bindM c (fun _ => k))
  (at level 61, right associativity).

(** [for x in l: body x] *)
Fixpoint for_each {A : Type} (l : list A) (body : A -> M unit) : M unit :=
  match l with
  | [] => ret tt
  | x :: rest => body x ;;; for_each rest body
  end.

(** [self._environments = []] *)
Definition reset_environments : M unit :=
  fun self =>
    (Ok tt,
     {| _environments :=
          {| list_id := S (list_id (_environments self)); list_items := [] |};
        _current_environment := _current_environment self |}).

(** [self._environments.append(environment)] *)
Definition append_environment (environment : PowerPlatformEnvironment) : M unit :=
  fun self =>
    (Ok tt,
     {| _environments :=
          {| list_id := list_id (_environments self);
             list_items := list_items (_environments self) ++ [environment] |};
        _current_environment := _current_environment self |}).

(** [self._current_environment = environment] *)
Definition set_current (environment : PowerPlatformEnvironment) : M unit :=
  fun self =>
    (Ok tt,
     {| _environments := _environments self;
        _current_environment := Some environment |}).

Definition formats : list string :=
  ["%Y-%m-%dT%H:%M:%S.%fZ";
   "%Y-%m-%dT%H:%M:%SZ";
   "%Y-%m-%d %H:%M:%S"].

Section Manager.
Variable rt : Runtime.
Variable pac_cli : PacCli.

(** The loop of [_parse_datetime]: return the first parse that succeeds,
    go on after a [ValueError], let anything else through. *)
Fixpoint try_formats (date_string : string) (fmts : list string)
  : result (option datetime) :=
  match fmts with
  | [] => Ok None
  | fmt :: rest =>
      match strptime rt date_string fmt with
      | Ok dt => Ok (Some dt)
      | Raise ValueError => try_formats date_string rest
      | Raise e => Raise e
      end
  end.

(** [_parse_datetime(date_string)]; [strptime] refuses what is not a string
    with [TypeError], which the outer handler turns into [None]. *)
Definition _parse_datetime (date_string : pyval) : option datetime :=
  if negb (truthy date_string) then None
  else
    try_except
      match date_string with
      | PyStr s => try_formats s formats
      | _ => Raise TypeError
      end
      (fun _ => None).

(** The constructor call in the loop of [refresh_environments]. *)
Definition make_environment (env : pyval) : result PowerPlatformEnvironment :=
  n <- py_get env "EnvironmentName" (PyStr "") ;;
  d <- py_get env "FriendlyName" (PyStr "") ;;
  u <- py_get env "EnvironmentUrl" (PyStr "") ;;
  r <- py_get env "Region" (PyStr "") ;;
  t <- py_get env "EnvironmentType" (PyStr "") ;;
  s <- py_get env "State" (PyStr "") ;;
  c <- py_get env "CreatedTime" PyNone ;;
  Ok {| name := n;
        display_name := d;
        url := u;
        region := r;
        environment_type := t;
        state := s;
        created_time := _parse_datetime c |}.

(** The [try] block of [refresh_environments]. *)
Definition refresh_body : M bool :=
  env_data <~ lift (cli_get_environments pac_cli) ;;
  reset_environments ;;;
  elems <~ lift (py_iter env_data) ;;
  for_each elems
    (fun env =>
       environment <~ lift (make_environment env) ;;
       append_environment environment) ;;;
  ret true.

Definition refresh_environments : M bool :=
  catch refresh_body (fun _ => ret false).

(** [get_environments] returns a copy of the list. *)
Definition get_environments (self : EnvironmentManager)
  : list PowerPlatformEnvironment :=
  list_items (_environments self).

(** The [try] block of [select_environment]. *)
Definition select_body (environment : PowerPlatformEnvironment) : M bool :=
  success <~ lift (cli_select_environment pac_cli (url environment)) ;;
  if success : bool then set_current environment ;;; ret true
  else ret false.

Definition select_environment (environment : PowerPlatformEnvironment) : M bool :=
  catch (select_body environment) (fun _ => ret false).

Definition get_current_environment (self : EnvironmentManager)
  : option PowerPlatformEnvironment :=
  _current_environment self.

(** *** The summary *)

(** A dict whose keys are values and whose values are counts, in insertion
    order. *)
Definition counts : Type := list (pyval * Z).

Definition as_int (v : pyval) : option Z :=
  match v with
  | PyBool b => Some (if b then 1 else 0)
  | PyInt z => Some z
  | _ => None
  end.

(** A float equals an integer when it has exactly that value. *)
Definition float_eq_int (f : spec_float) (z : Z) : bool :=
  match f with
  | S754_zero _ => z =? 0
  | S754_finite s m e =>
      let v := if s then Z.neg m else Z.pos m in
      if 0 <=? e then z =? v * 2 ^ e else z * 2 ^ (- e) =? v
  | _ => false
  end.

(** Two keys name the same entry of a dict: equal strings, [None] twice, or
    equal numbers ([True] is 1).  The not-a-number of [json.loads] is one
    object, which a dict finds by identity. *)
Definition key_eqb (a b : pyval) : bool :=
  match a, b with
  | PyNone, PyNone => true
  | PyStr x, PyStr y => String.eqb x y
  | PyFloat S754_nan, PyFloat S754_nan => true
  | PyFloat f, PyFloat g => SFeqb f g
  | PyFloat f, other | other, PyFloat f =>
      match as_int other with
      | Some z => float_eq_int f z
      | None => false
      end
  | _, _ =>
      match as_int a, as_int b with
      | Some x, Some y => x =? y
      | _, _ => false
      end
  end.

(** [hash(key)]: lists and dicts are unhashable. *)
Definition check_hashable (key : pyval) : result unit :=
  match key with
  | PyList _ | PyDict _ => Raise TypeError
  | _ => Ok tt
  end.

(** [d.get(key, 0)] once the key is known to be hashable *)
Fixpoint counts_get (d : counts) (key : pyval) : Z :=
  match d with
  | [] => 0
  | (k, n) :: rest => if key_eqb k key then n else counts_get rest key
  end.

(** [d[key] = n]: an entry that exists keeps its place and its key. *)
Fixpoint counts_set (d : counts) (key : pyval) (n : Z) : counts :=
  match d with
  | [] => [(key, n)]
  | (k, m) :: rest =>
      if key_eqb k key then (k, n) :: rest
      else (k, m) :: counts_set rest key n
  end.

(** [d[key] = d.get(key, 0) + 1] *)
Definition count_one (d : counts) (key : pyval) : result counts :=
  _ <- check_hashable key ;;
  Ok (counts_set d key (counts_get d key + 1)).

(** The dict [get_environment_summary] returns. *)
Record Summary : Type := {
  total : Z;
  by_type : counts;
  by_region : counts;
  by_state : counts
}.

Definition Unknown : pyval := PyStr "Unknown".

(** The body of the loop of [get_environment_summary]. *)
Definition summary_step (summary : Summary) (env : PowerPlatformEnvironment)
  : result Summary :=
  let env_type := py_or (environment_type env) Unknown in
  t <- count_one (by_type summary) env_type ;;
  let region := py_or (region env) Unknown in
  r <- count_one (by_region summary) region ;;
  let state := py_or (state env) Unknown in
  s <- count_one (by_state summary) state ;;
  Ok {| total := total summary; by_type := t; by_region := r; by_state := s |}.

Fixpoint summary_loop (envs : list PowerPlatformEnvironment) (summary : Summary)
  : result Summary :=
  match envs with
  | [] => Ok summary
  | env :: rest =>
      summary' <- summary_step summary env ;;
      summary_loop rest summary'
  end.

Definition get_environment_summary (self : EnvironmentManager) : result Summary :=
  let summary :=
    {| total := Z.of_nat (List.length (list_items (_environments self)));
       by_type := [];
       by_region := [];
       by_state := [] |} in
  summary_loop (list_items (_environments self)) summary.

(** *** The search *)

(** [v.lower()]: only a string has the method. *)
Definition py_lower (v : pyval) : result string :=
  match v with
  | PyStr s => Ok (str_lower rt s)
  | _ => Raise AttributeError
  end.

(** The condition of the comprehension; [or] does not evaluate its second
    operand when the first is true. *)
Definition search_condition (query_lower : string) (env : PowerPlatformEnvironment)
  : result bool :=
  n <- py_lower (name env) ;;
  if str_in query_lower n then Ok true
  else
    d <- py_lower (display_name env) ;;
    Ok (str_in query_lower d).

(** [[env for env in envs if cond env]] *)
Fixpoint comprehension (envs : list PowerPlatformEnvironment)
         (cond : PowerPlatformEnvironment -> result bool)
  : result (list PowerPlatformEnvironment) :=
  match envs with
  | [] => Ok []
  | env :: rest =>
      keep <- cond env ;;
      tail <- comprehension rest cond ;;
      Ok (if keep : bool then env :: tail else tail)
  end.

Definition search_environments (self : EnvironmentManager) (query : string)
  : result (list PowerPlatformEnvironment) :=
  let query_lower := str_lower rt query in
  comprehension (list_items (_environments self)) (search_condition query_lower).

End Manager.

End Environment.

(* ================================================================== *)
(** ** A model of the CPython library on ASCII text *)
(* ================================================================== *)

(** [datetime.strptime] and [str.lower] are CPython's, not this program's.
    The general theorems below hold for every [Runtime]; the concrete
    instants the specification names need the library's behaviour, which
    this module follows for ASCII text: [_strptime] turns the format into
    a regular expression, matches it ignoring case, demands that the whole
    text is consumed, and lets the [datetime] constructor check ranges. *)
Module CPython.

Definition code (c : ascii) : Z := Z.of_N (N_of_ascii c).

Definition is_digit (c : ascii) : bool := (48 <=? code c) && (code c <=? 57).
Definition digit (c : ascii) : Z := code c - 48.
Definition between (lo hi : Z) (c : ascii) : bool :=
  (lo <=? digit c) && (digit c <=? hi).

(** [str.isspace] on ASCII, as the class of whitespace in the pattern *)
Definition is_space (c : ascii) : bool :=
  ((9 <=? code c) && (code c <=? 13)) ||
  ((28 <=? code c) && (code c <=? 32)).

Definition lower_char (c : ascii) : ascii :=
  if (65 <=? code c) && (code c <=? 90)
  then ascii_of_N (N_of_ascii c + 32)
  else c.

(** [str.lower] on ASCII text *)
Fixpoint lower (s : string) : string :=
  match s with
  | EmptyString => EmptyString
  | String c rest => String (lower_char c) (lower rest)
  end.

(** The pieces of a format. *)
Inductive token : Type :=
| TYear | TMonth | TDay | THour | TMinute | TSecond | TFraction
| TSpace
| TLit (c : ascii).

(** The format as a sequence of pieces; [None] for a directive the model
    does not know or a stray percent sign. *)
Fixpoint tokens (format : string) : option (list token) :=
  match format with
  | EmptyString => Some []
  | String c rest =>
      if Ascii.eqb c "%" then
        match rest with
        | EmptyString => None
        | String d rest' =>
            match
              (if Ascii.eqb d "Y" then Some TYear
               else if Ascii.eqb d "m" then Some TMonth
               else if Ascii.eqb d "d" then Some TDay
               else if Ascii.eqb d "H" then Some THour
               else if Ascii.eqb d "M" then Some TMinute
               else if Ascii.eqb d "S" then Some TSecond
               else if Ascii.eqb d "f" then Some TFraction
               else if Ascii.eqb d "%" then Some (TLit "%")
               else None),
              tokens rest'
            with
            | Some t, Some ts => Some (t :: ts)
            | _, _ => None
            end
        end
      else
        match tokens rest with
        | Some ts =>
            if is_space c then
              match ts with
              | TSpace :: _ => Some ts
              | _ => Some (TSpace :: ts)
              end
            else Some (TLit c :: ts)
        | None => None
        end
  end.

(** Two characters read as a number when they satisfy [p]. *)
Definition two (p : ascii -> ascii -> bool) (s : string) : list (Z * string) :=
  match s with
  | String a (String b rest) =>
      if is_digit a && is_digit b && p a b
      then [(10 * digit a + digit b, rest)] else []
  | _ => []
  end.

Definition one (p : ascii -> bool) (s : string) : list (Z * string) :=
  match s with
  | String a rest => if is_digit a && p a then [(digit a, rest)] else []
  | _ => []
  end.

(** The greedy run of at most [n] characters that satisfy [p], with the
    shorter runs the matcher falls back to: each as (the run, the rest),
    longest first, none of them empty. *)
Fixpoint runs (p : ascii -> bool) (n : nat) (s : string) : list (string * string) :=
  match n, s with
  | S n', String c rest =>
      if p c then
        map (fun r => (String c (fst r), snd r)) (runs p n' rest)
        ++ [(String c EmptyString, rest)]
      else []
  | _, _ => []
  end.

Fixpoint digits_value (s : string) (acc : Z) : Z :=
  match s with
  | EmptyString => acc
  | String c rest => digits_value rest (10 * acc + digit c)
  end.

(** [int(s + zeros)] with [s] padded on the right to six digits *)
Definition fraction_value (s : string) : Z :=
  digits_value s 0 * 10 ^ (6 - Z.of_nat (String.length s)).

(** The ways a piece matches at the start of the text, in the order the
    regular expression tries them: the number read and what is left. *)
Definition alternatives (t : token) (s : string) : list (Z * string) :=
  match t with
  | TYear =>
      match s with
      | String a (String b (String c (String d rest))) =>
          if is_digit a && is_digit b && is_digit c && is_digit d
          then [(1000 * digit a + 100 * digit b + 10 * digit c + digit d, rest)]
          else []
      | _ => []
      end
  | TMonth =>
      two (fun a b => between 1 1 a && between 0 2 b) s
      ++ two (fun a b => between 0 0 a && between 1 9 b) s
      ++ one (between 1 9) s
  | TDay =>
      two (fun a b => between 3 3 a && between 0 1 b) s
      ++ two (fun a b => between 1 2 a) s
      ++ two (fun a b => between 0 0 a && between 1 9 b) s
      ++ one (between 1 9) s
      ++ match s with
         | String a rest => if Ascii.eqb a " " then one (between 1 9) rest else []
         | _ => []
         end
  | THour =>
      two (fun a b => between 2 2 a && between 0 3 b) s
      ++ two (fun a b => between 0 1 a) s
      ++ one (fun _ => true) s
  | TMinute =>
      two (fun a b => between 0 5 a) s
      ++ one (fun _ => true) s
  | TSecond =>
      two (fun a b => between 6 6 a && between 0 1 b) s
      ++ two (fun a b => between 0 5 a) s
      ++ one (fun _ => true) s
  | TFraction =>
      map (fun r => (fraction_value (fst r), snd r)) (runs is_digit 6 s)
  | TSpace =>
      map (fun r => (0, snd r)) (runs is_space (String.length s) s)
  | TLit c =>
      match s with
      | String a rest =>
          if Ascii.eqb (lower_char a) (lower_char c) then [(0, rest)] else []
      | _ => []
      end
  end.

(** The fields read so far; a directive that is absent keeps the default. *)
Definition store (t : token) (v : Z) (dt : datetime) : datetime :=
  match t with
  | TYear => mk_datetime v (month dt) (day dt) (hour dt) (minute dt) (second dt) (microsecond dt)
  | TMonth => mk_datetime (year dt) v (day dt) (hour dt) (minute dt) (second dt) (microsecond dt)
  | TDay => mk_datetime (year dt) (month dt) v (hour dt) (minute dt) (second dt) (microsecond dt)
  | THour => mk_datetime (year dt) (month dt) (day dt) v (minute dt) (second dt) (microsecond dt)
  | TMinute => mk_datetime (year dt) (month dt) (day dt) (hour dt) v (second dt) (microsecond dt)
  | TSecond => mk_datetime (year dt) (month dt) (day dt) (hour dt) (minute dt) v (microsecond dt)
  | TFraction => mk_datetime (year dt) (month dt) (day dt) (hour dt) (minute dt) (second dt) v
  | TSpace | TLit _ => dt
  end.

(** The first match of the pieces at the start of the text, backtracking
    through the alternatives: the fields and the text left over. *)
Fixpoint first_match (ts : list token) (s : string) (dt : datetime)
  : option (datetime * string) :=
  match ts with
  | [] => Some (dt, s)
  | t :: ts' =>
      (fix try (alts : list (Z * string)) : option (datetime * string) :=
         match alts with
         | [] => None
         | (v, rest) :: alts' =>
             match first_match ts' rest (store t v dt) with
             | Some r => Some r
             | None => try alts'
             end
         end) (alternatives t s)
  end.

Definition is_leap (y : Z) : bool :=
  ((y mod 4 =? 0) && negb (y mod 100 =? 0)) || (y mod 400 =? 0).

Definition days_in_month (y m : Z) : Z :=
  if m =? 2 then (if is_leap y then 29 else 28)
  else if (m =? 4) || (m =? 6) || (m =? 9) || (m =? 11) then 30
  else 31.

(** The ranges the [date] and [datetime] constructors accept. *)
Definition valid (dt : datetime) : bool :=
  (1 <=? year dt) && (year dt <=? 9999) &&
  (1 <=? month dt) && (month dt <=? 12) &&
  (1 <=? day dt) && (day dt <=? days_in_month (year dt) (month dt)) &&
  (0 <=? hour dt) && (hour dt <=? 23) &&
  (0 <=? minute dt) && (minute dt <=? 59) &&
  (0 <=? second dt) && (second dt <=? 59) &&
  (0 <=? microsecond dt) && (microsecond dt <=? 999999).

Definition epoch : datetime := mk_datetime 1900 1 1 0 0 0 0.

Definition strptime (data_string format : string) : result datetime :=
  match tokens format with
  | None => Raise ValueError
  | Some ts =>
      match first_match ts data_string epoch with
      | Some (dt, EmptyString) => if valid dt then Ok dt else Raise ValueError
      | _ => Raise ValueError
      end
  end.

(** [json.loads] decodes an array by a call nested in the decoding of
    the array around it, so a text that opens more arrays in a row than
    the interpreter allows nested calls raises [RecursionError], whether
    or not the arrays are closed later.  [leading_opens] counts the opening
    brackets a text starts with. *)
Fixpoint leading_opens (text : string) : N :=
  match text with
  | String c rest => if Ascii.eqb c "[" then N.succ (leading_opens rest) else 0%N
  | EmptyString => 0%N
  end.

(** [sys.getrecursionlimit()] as the interpreter starts *)
Definition recursion_limit : N := 1000.

(** A decoder that raises [RecursionError] on a text nested too deep at
    its start and otherwise answers as [otherwise] does. *)
Definition guarded_loads (otherwise : string -> result pyval) (text : string)
  : result pyval :=
  if (recursion_limit <? leading_opens text)%N then Raise RecursionError
  else otherwise text.

(** The platform with CPython's library and the given processes and
    decoder. *)
Definition runtime (run : list string -> Z -> ProcOutcome)
           (loads : string -> result pyval) : Runtime :=
  Build_Runtime run loads strptime lower.

End CPython.

(* ================================================================== *)
(** ** [src/utils/helpers.py] *)
(* ================================================================== *)

Module Helpers.

(** The characters [sanitize_filename] replaces: less-than, greater-than,
    colon, double quote, slash, backslash, bar, question mark, star. *)
Definition invalid_chars : string :=
  String "<" (String ">" (String ":" (String (ascii_of_nat 34) "/\|?*"))).

(** [s.replace(old, new)] for one-character [old] and [new] *)
Fixpoint replace_char (old new : ascii) (s : string) : string :=
  match s with
  | EmptyString => EmptyString
  | String c rest =>
      String (if Ascii.eqb c old then new else c) (replace_char old new rest)
  end.

(** [for char in chars: filename = filename.replace(char, '_')] *)
Fixpoint replace_each (chars : string) (filename : string) : string :=
  match chars with
  | EmptyString => filename
  | String char rest => replace_each rest (replace_char char "_" filename)
  end.

(** [c in chars] *)
Fixpoint char_in (c : ascii) (chars : string) : bool :=
  match chars with
  | EmptyString => false
  | String d rest => Ascii.eqb c d || char_in c rest
  end.

(** [s.lstrip(chars)] *)
Fixpoint lstrip (chars : string) (s : string) : string :=
  match s with
  | EmptyString => EmptyString
  | String c rest => if char_in c chars then lstrip chars rest else s
  end.

(** [s.rstrip(chars)] *)
Fixpoint rstrip (chars : string) (s : string) : string :=
  match s with
  | EmptyString => EmptyString
  | String c rest =>
      match rstrip chars rest with
      | EmptyString => if char_in c chars then EmptyString else String c EmptyString
      | kept => String c kept
      end
  end.

(** [s.strip(chars)] *)
Definition strip (chars : string) (s : string) : string :=
  rstrip chars (lstrip chars s).

Definition sanitize_filename (filename : string) : string :=
  let filename := replace_each invalid_chars filename in
  let filename := strip " ." filename in
  if String.eqb filename "" then "untitled" else filename.

(** *** The configuration *)

(** A dict whose keys are any hashable values, in insertion order. *)
Definition pydict : Type := list (pyval * pyval).

(** [d.get(key)] *)
Fixpoint getitem (d : pydict) (key : pyval) : option pyval :=
  match d with
  | [] => None
  | (k, v) :: rest =>
      if Environment.key_eqb k key then Some v else getitem rest key
  end.

(** [d[key] = value]: an entry that exists keeps its place and its key. *)
Fixpoint setitem (d : pydict) (key value : pyval) : pydict :=
  match d with
  | [] => [(key, value)]
  | (k, v) :: rest =>
      if Environment.key_eqb k key then (k, value) :: rest
      else (k, v) :: setitem rest key value
  end.

(** [d.update(other)] for a dict [other]: its entries are stored in order. *)
Fixpoint merge_entries (d : pydict) (entries : list (string * pyval)) : pydict :=
  match entries with
  | [] => d
  | (k, v) :: rest => merge_entries (setitem d (PyStr k) v) rest
  end.

(** [d.update(other)] for an iterable [other] that is not a dict: every
    item must be a sequence of two elements, a key and a value.  The dict
    as it is when the update ends or raises, and how it ends. *)
Fixpoint merge_pairs (d : pydict) (items : list pyval) : pydict * result unit :=
  match items with
  | [] => (d, Ok tt)
  | item :: rest =>
      match py_iter item with
      | Raise e => (d, Raise e)
      | Ok [key; value] =>
          match Environment.check_hashable key with
          | Raise e => (d, Raise e)
          | Ok _ => merge_pairs (setitem d key value) rest
          end
      | Ok _ => (d, Raise ValueError)
      end
  end.

(** [d.update(other)] *)
Definition update (d : pydict) (other : pyval) : pydict * result unit :=
  match other with
  | PyDict entries => (merge_entries d entries, Ok tt)
  | _ =>
      match py_iter other with
      | Raise e => (d, Raise e)
      | Ok items => merge_pairs d items
      end
  end.

Definition default_config : pydict :=
  [(PyStr "application",
    PyDict [("name", PyStr "Power Platform Utility");
            ("version", PyStr "1.0.0");
            ("theme", PyStr "default")]);
   (PyStr "pac_cli",
    PyDict [("timeout", PyInt 30);
            ("retry_attempts", PyInt 3)]);
   (PyStr "ui",
    PyDict [("window_width", PyInt 1200);
            ("window_height", PyInt 800);
            ("remember_size", PyBool true);
            ("remember_position", PyBool true)]);
   (PyStr "logging",
    PyDict [("level", PyStr "INFO");
            ("file_logging", PyBool true)])].

(** What the file system answers for the path [load_config] works on,
    which its argument determines ([None] is the default path): whether
    the path exists, and what opening the file and decoding it give. *)
Record Files : Type := {
  path_exists : option string -> result bool;
  load_json : option string -> result pyval
}.

(** [except (json.JSONDecodeError, IOError)] *)
Definition caught (e : exn) : bool :=
  match e with
  | JSONDecodeError | FileNotFoundError | PermissionError | OSError => true
  | _ => false
  end.

Definition load_config (fs : Files) (config_path : option string)
  : result pydict :=
  present <- path_exists fs config_path ;;
  if present : bool then
    let (config, ended) :=
      match load_json fs config_path with
      | Raise e => (default_config, Raise e)
      | Ok file_config => update default_config file_config
      end in
    match ended with
    | Ok _ => Ok config
    | Raise e => if caught e then Ok config else Raise e
    end
  else Ok default_config.

End Helpers.

(* ================================================================== *)
(** ** Vocabulary of the statements *)
(* ================================================================== *)

Module Spec.

Import Environment.

(** What a facade method that only reports success makes of an outcome. *)
Definition reported (outcome : ProcOutcome) : result bool :=
  match outcome with
  | Completed rc _ _ => Ok (rc =? 0)
  | TimeoutExpired => Ok false
  | ProcessError e => Raise e
  end.

(** [needle] occurs in [hay]. *)
Definition contains (needle hay : string) : Prop :=
  exists pre post : string, hay = (pre ++ needle ++ post)%string.





(** A field the summary can count: a string, or a value that tests false
    (an empty string, [None]). *)
Definition countable (v : pyval) : Prop :=
  (exists s : string, v = PyStr s) \/ truthy v = false.

Definition countable_fields (env : PowerPlatformEnvironment) : Prop :=
  countable (environment_type env) /\ countable (region env) /\
  countable (state env).

(** The label a countable field is counted under. *)
Definition label (v : pyval) : string :=
  match v with
  | PyStr s => if String.eqb s "" then "Unknown" else s
  | _ => "Unknown"
  end.

(** How many of the labels are [k]. *)
Definition occurrences (k : string) (labels : list string) : nat :=
  List.length (filter (String.eqb k) labels).

(** The mapping [d] counts the labels: its keys are the labels that occur,
    each once, and each is mapped to its number of occurrences. *)
Definition tallies (d : counts) (labels : list string) : Prop :=
  NoDup (map fst d) /\
  (forall key : pyval, In key (map fst d) -> exists k : string, key = PyStr k) /\
  (forall k : string, In (PyStr k) (map fst d) <-> In k labels) /\
  (forall k : string,
      In k labels ->
      In (PyStr k, Z.of_nat (occurrences k labels)) d).

(** Every key of the mapping is a string. *)
Definition string_keys (d : counts) : Prop :=
  Forall (fun kv : pyval * Z => exists k : string, fst kv = PyStr k) d.

(** What the loop of the summary keeps true of a mapping while it counts
    [labels]: string keys, no key twice, every count right and positive. *)
Definition counted (d : counts) (labels : list string) : Prop :=
  string_keys d /\
  NoDup (map fst d) /\
  (forall k : string, counts_get d (PyStr k) = Z.of_nat (occurrences k labels)) /\
  (forall (key : pyval) (n : Z), In (key, n) d -> 0 < n).

(** The labels of a field over a catalog. *)
Definition labels_of (field : PowerPlatformEnvironment -> pyval)
           (envs : list PowerPlatformEnvironment) : list string :=
  map (fun env => label (field env)) envs.

(** The environments made from the longest prefix of [elems] that the loop
    of [refresh_environments] converts without an exception. *)
Fixpoint converted_prefix (rt : Runtime) (elems : list pyval)
  : list PowerPlatformEnvironment :=
  match elems with
  | [] => []
  | env :: rest =>
      match make_environment rt env with
      | Ok environment => environment :: converted_prefix rt rest
      | Raise _ => []
      end
  end.

(** The elements the loop visits; none when the value cannot be iterated. *)
Definition visited (env_data : pyval) : list pyval :=
  match py_iter env_data with
  | Ok elems => elems
  | Raise _ => []
  end.

(** The loop gets through the whole of [env_data]. *)
Definition convertible (rt : Runtime) (env_data : pyval) : bool :=
  match py_iter env_data with
  | Ok elems =>
      forallb (fun env => match make_environment rt env with
                          | Ok _ => true
                          | Raise _ => false
                          end) elems
  | Raise _ => false
  end.

(** The manager with a new list object holding [items]. *)
Definition replaced (self : EnvironmentManager)
           (items : list PowerPlatformEnvironment) : EnvironmentManager :=
  {| _environments :=
       {| list_id := S (list_id (_environments self)); list_items := items |};
     _current_environment := _current_environment self |}.

(** The manager with [environment] selected. *)
Definition selected (self : EnvironmentManager)
           (environment : PowerPlatformEnvironment) : EnvironmentManager :=
  {| _environments := _environments self;
     _current_environment := Some environment |}.

(** A timestamp to second precision. *)
Definition to_second (dt : datetime) : Z * Z * Z * Z * Z * Z :=
  (year dt, month dt, day dt, hour dt, minute dt, second dt).

(** The environment a decoded record stands for: each field is the
    record's value or the empty string, the timestamp is parsed. *)
Definition environment_of (rt : Runtime) (entries : list (string * pyval))
  : PowerPlatformEnvironment :=
  {| name := dict_get entries "EnvironmentName" (PyStr "");
     display_name := dict_get entries "FriendlyName" (PyStr "");
     url := dict_get entries "EnvironmentUrl" (PyStr "");
     region := dict_get entries "Region" (PyStr "");
     environment_type := dict_get entries "EnvironmentType" (PyStr "");
     state := dict_get entries "State" (PyStr "");
     created_time := _parse_datetime rt (dict_get entries "CreatedTime" PyNone) |}.

(** The value is a string. *)
Definition is_str (v : pyval) : bool :=
  match v with
  | PyStr _ => true
  | _ => false
  end.

(** The outcome is a failed command: a timeout or a non-zero exit code. *)
Definition failed (outcome : ProcOutcome) : Prop :=
  outcome = TimeoutExpired \/
  exists (rc : Z) (out err : string), rc <> 0 /\ outcome = Completed rc out err.

(** The sum of the counts of a mapping. *)
Definition sum_counts (d : counts) : Z :=
  fold_right (fun (kv : pyval * Z) (acc : Z) => snd kv + acc) 0 d.

(** A field the summary cannot use as a key: a list or an object that is
    not empty (an empty one tests false and is counted as unknown). *)
Definition unhashable_field (v : pyval) : bool :=
  match v with
  | PyList (_ :: _) | PyDict (_ :: _) => true
  | _ => false
  end.

Definition summarisable (env : PowerPlatformEnvironment) : Prop :=
  unhashable_field (environment_type env) = false /\
  unhashable_field (region env) = false /\
  unhashable_field (state env) = false.

(** The environment makes the search raise: its name is not a string, or
    its name is a string without the query and its display name is not a
    string. *)
Definition trips (rt : Runtime) (query : string)
           (env : PowerPlatformEnvironment) : bool :=
  match name env with
  | PyStr n =>
      if str_in (str_lower rt query) (str_lower rt n) then false
      else negb (is_str (display_name env))
  | _ => true
  end.

(** The environment is kept by the search, on any catalog. *)
Definition hits (rt : Runtime) (query : string)
           (env : PowerPlatformEnvironment) : bool :=
  match name env with
  | PyStr n =>
      str_in (str_lower rt query) (str_lower rt n)
      || match display_name env with
         | PyStr d => str_in (str_lower rt query) (str_lower rt d)
         | _ => false
         end
  | _ => false
  end.

(** The character occurs in the text. *)
Definition occurs (c : ascii) (s : string) : Prop :=
  In c (list_ascii_of_string s).

(** What [sanitize_filename] makes of one character. *)
Definition scrub (c : ascii) : ascii :=
  if Helpers.char_in c Helpers.invalid_chars then "_"%char else c.

(** What the replacements of [chars], one after the other, make of one
    character. *)
Fixpoint scrub_each (chars : string) (c : ascii) : ascii :=
  match chars with
  | EmptyString => c
  | String char rest => scrub_each rest (if Ascii.eqb c char then "_"%char else c)
  end.

Fixpoint map_string (f : ascii -> ascii) (s : string) : string :=
  match s with
  | EmptyString => EmptyString
  | String c rest => String (f c) (map_string f rest)
  end.

(** The last character of a text that has one. *)
Fixpoint last_char (s : string) : option ascii :=
  match s with
  | EmptyString => None
  | String c EmptyString => Some c
  | String _ rest => last_char rest
  end.

(** A file name [sanitize_filename] has nothing to do on: not empty, none
    of the nine characters, no space or dot at either end. *)
Definition tidy (s : string) : Prop :=
  s <> ""%string /\
  (forall c : ascii, occurs c s -> Helpers.char_in c Helpers.invalid_chars = false) /\
  (forall (c : ascii) (rest : string),
      s = String c rest -> Helpers.char_in c " ." = false) /\
  (forall c : ascii, last_char s = Some c -> Helpers.char_in c " ." = false).

(** The value the entries give a key, if any. *)
Fixpoint entry (entries : list (string * pyval)) (key : string) : option pyval :=
  match entries with
  | [] => None
  | (k, v) :: rest => if String.eqb k key then Some v else entry rest key
  end.

(** Every key of the dict is a string. *)
Definition string_keyed (d : Helpers.pydict) : Prop :=
  Forall (fun kv : pyval * pyval => exists k : string, fst kv = PyStr k) d.

(** [None], a boolean or a number: a value that cannot be iterated. *)
Definition scalar (v : pyval) : bool :=
  match v with
  | PyNone | PyBool _ | PyInt _ | PyFloat _ => true
  | _ => false
  end.

End Spec.

(* ================================================================== *)
(** ** Concrete platforms and catalogs for the examples *)
(* ================================================================== *)

Module Examples.

Import Environment.

(** A decoder that knows three texts. *)
Definition loads (text : string) : result pyval :=
  if String.eqb text "[]" then Ok (PyList [])
  else if String.eqb text "[{}, 7]" then Ok (PyList [PyDict []; PyInt 7])
  else if String.eqb text "[1, [2]]" then Ok (PyList [PyInt 1; PyList [PyInt 2]])
  else Raise JSONDecodeError.

(** Every command exits with [rc] and prints [out]. *)
Definition exits (rc : Z) (out : string) : Runtime :=
  CPython.runtime (fun _ _ => Completed rc out "") loads.

(** Every command runs into its timeout. *)
Definition hangs : Runtime :=
  CPython.runtime (fun _ _ => TimeoutExpired) loads.

(** The executable has gone missing. *)
Definition missing : Runtime :=
  CPython.runtime (fun _ _ => ProcessError FileNotFoundError) loads.

Definition environment (n d t : pyval) : PowerPlatformEnvironment :=
  {| name := n; display_name := d; url := PyStr "https://org.example";
     region := PyStr "europe"; environment_type := t; state := PyStr "Ready";
     created_time := None |}.

Definition prod_eu : PowerPlatformEnvironment :=
  environment (PyStr "prod-eu") (PyStr "Production EU") (PyStr "Production").

Definition dev_us : PowerPlatformEnvironment :=
  environment (PyStr "dev-us") (PyStr "Development US") (PyStr "Sandbox").

(** What an empty record converts to. *)
Definition blank : PowerPlatformEnvironment :=
  {| name := PyStr ""; display_name := PyStr ""; url := PyStr "";
     region := PyStr ""; environment_type := PyStr ""; state := PyStr "";
     created_time := None |}.

Definition manager (items : list PowerPlatformEnvironment) : EnvironmentManager :=
  {| _environments := {| list_id := 0; list_items := items |};
     _current_environment := None |}.


(** Two records as the listing command reports them, the first with a
    timestamp no format accepts. *)
Definition stamped (n stamp : string) : pyval :=
  PyDict [("EnvironmentName", PyStr n); ("CreatedTime", PyStr stamp)].

Definition listing : PacCli :=
  {| cli_get_environments :=
       Ok (PyList [stamped "dev-us" "not-a-date";
                   stamped "prod-eu" "2024-01-15T10:30:00Z"]);
     cli_select_environment := fun _ => Ok true |}.

Definition plain : Runtime := exits 0 "[]".


(** The four environments of the summary example: two sandboxes, one
    production environment and one without a type. *)
Definition four : list PowerPlatformEnvironment :=
  [environment (PyStr "a") (PyStr "A") (PyStr "Sandbox");
   environment (PyStr "b") (PyStr "B") (PyStr "Sandbox");
   environment (PyStr "c") (PyStr "C") (PyStr "Production");
   environment (PyStr "d") (PyStr "D") PyNone].


(** A settings file that sets one option of [pac_cli]. *)
Definition settings : Helpers.Files :=
  {| Helpers.path_exists := fun _ => Ok true;
     Helpers.load_json :=
       fun _ => Ok (PyDict [("pac_cli", PyDict [("timeout", PyInt 60)])]) |}.

(** No settings file. *)
Definition no_settings : Helpers.Files :=
  {| Helpers.path_exists := fun _ => Ok false;
     Helpers.load_json := fun _ => Raise FileNotFoundError |}.


(** [n] times the character [c], then [tail]. *)
Definition repeated (n : N) (c : ascii) (tail : string) : string :=
  N.iter n (String c) tail.

(** One hundred thousand opening brackets: no JSON text. *)
Definition unclosed : string := repeated 100000 "[" "".

(** One hundred thousand arrays, each holding the next, the innermost
    empty: a JSON array. *)
Definition nested : string := repeated 100000 "[" (repeated 100000 "]" "").

(** Every command exits with code 0 and prints [out]; the decoder is
    CPython's as far as its recursion guard goes. *)
Definition prints (out : string) : Runtime :=
  CPython.runtime (fun _ _ => Completed 0 out "") (CPython.guarded_loads loads).


(** An environment whose type is a list. *)
Definition listed_type : PowerPlatformEnvironment :=
  environment (PyStr "prod-eu") (PyStr "Production EU")
    (PyList [PyStr "Production"]).

End Examples.

(* ================================================================== *)
(** ** The command runner and the facade *)
(* ================================================================== *)

Section WrapperFacts.

Import PACCLIWrapper.
Variable rt : Runtime.

Lemma str_items_strings (l : list string) : str_items (map PyStr l) = Ok l.
Proof.
  induction l as [|s l IH]; simpl.
  - reflexivity.
  - rewrite IH. reflexivity.
Qed.

(** With string arguments, [run_command] is decided by the one process it
    starts. *)
Lemma run_command_strings (args : list string) (timeout : Z) :
  run_command rt (map PyStr args) (Some timeout) =
  match subprocess_run rt ("pac" :: args) timeout with
  | Completed rc out err =>
      Ok {| success := rc =? 0; stdout := out; stderr := err;
            returncode := rc; command := String.concat " " ("pac" :: args) |}
  | TimeoutExpired =>
      Ok {| success := false; stdout := ""; stderr := "Command timed out";
            returncode := -1; command := String.concat " " ("pac" :: args) |}
  | ProcessError e => Raise e
  end.
Proof.
  unfold run_command. cbn [str_items].
  rewrite str_items_strings. reflexivity.
Qed.

Lemma run_command_default (args : list pyval) :
  run_command rt args None = run_command rt args (Some 30).
Proof. reflexivity. Qed.

(** C2.  For every argument list and timeout, [run_command] returns a
    result whose success flag is true exactly when the process exits with
    code zero, hence did not time out; the result carries the exit code and
    the two output streams of the process as they are.  When the timeout
    expires it returns, without raising, the result with success false,
    exit code -1, empty standard output and standard error
    [Command timed out].  It raises only what starting the process
    raises. *)
Theorem run_command_success_flag (args : list string) (timeout : Z) :
  match subprocess_run rt ("pac" :: args) timeout with
  | Completed rc out err =>
      exists r : CommandResult,
        run_command rt (map PyStr args) (Some timeout) = Ok r /\
        returncode r = rc /\ stdout r = out /\ stderr r = err /\
        command r = String.concat " " ("pac" :: args) /\
        (success r = true <-> rc = 0)
  | TimeoutExpired =>
      exists r : CommandResult,
        run_command rt (map PyStr args) (Some timeout) = Ok r /\
        success r = false /\ returncode r = -1 /\
        stdout r = ""%string /\ stderr r = "Command timed out"%string /\
        command r = String.concat " " ("pac" :: args)
  | ProcessError e =>
      run_command rt (map PyStr args) (Some timeout) = Raise e
  end /\
  (forall r : CommandResult,
      run_command rt (map PyStr args) (Some timeout) = Ok r ->
      (success r = true <->
       exists out err : string,
         subprocess_run rt ("pac" :: args) timeout = Completed 0 out err) /\
      (success r = true <->
       returncode r = 0 /\
       subprocess_run rt ("pac" :: args) timeout <> TimeoutExpired)).
Proof.
  rewrite run_command_strings.
  destruct (subprocess_run rt ("pac" :: args) timeout) as [rc out err| |e].
  - split.
    + eexists. split; [reflexivity|]. cbn. repeat split.
      * apply Z.eqb_eq.
      * intros ->. reflexivity.
    + intros r H. injection H as <-. cbn. rewrite Z.eqb_eq. split; split.
      * intros ->. eauto.
      * intros (o & e & H). injection H as -> _ _. reflexivity.
      * intros ->. split; [reflexivity | discriminate].
      * intros [H _]. exact H.
  - split.
    + eexists. split; [reflexivity|]. cbn. repeat split.
    + intros r H. injection H as <-. cbn. split; split.
      * discriminate.
      * intros (o & e & H). discriminate.
      * discriminate.
      * intros [H _]. discriminate.
  - split; [reflexivity | discriminate].
Qed.

(** The two listing methods share their shape. *)
Lemma listing_completed (args : list string) (rc : Z) (out err : string) :
  subprocess_run rt ("pac" :: args) 30 = Completed rc out err ->
  (r <- run_command rt (map PyStr args) None ;;
   if success r then loads_or rt (stdout r) (PyList []) else Ok (PyList [])) =
  if rc =? 0 then loads_or rt out (PyList []) else Ok (PyList []).
Proof.
  intros H. rewrite run_command_default, run_command_strings, H. reflexivity.
Qed.

(** What a listing method makes of a command that exits with code 0. *)
Lemma listing_decoded (args : list string) (out err : string) :
  subprocess_run rt ("pac" :: args) 30 = Completed 0 out err ->
  (r <- run_command rt (map PyStr args) None ;;
   if success r then loads_or rt (stdout r) (PyList []) else Ok (PyList [])) =
  match json_loads rt out with
  | Ok v => Ok v
  | Raise JSONDecodeError => Ok (PyList [])
  | Raise e => Raise e
  end.
Proof.
  intros H. rewrite (listing_completed args 0 out err H). reflexivity.
Qed.

(** C3, as the code has it.  When the listing command exits with code 0 and
    [json.loads] raises [JSONDecodeError] on its output,
    [get_environments] and [get_solutions] each return the empty list
    and do not raise.  When [json.loads] raises another exception on the
    output, as it does on a text that opens too many arrays, they raise
    that exception. *)
Theorem malformed_json_gives_empty (out : string) :
  (json_loads rt out = Raise JSONDecodeError ->
   (forall err : string,
       subprocess_run rt ["pac"; "org"; "list"; "--json"] 30 = Completed 0 out err ->
       get_environments rt = Ok (PyList [])) /\
   (forall err : string,
       subprocess_run rt ["pac"; "solution"; "list"; "--json"] 30 = Completed 0 out err ->
       get_solutions rt = Ok (PyList []))) /\
  (forall e : exn,
      json_loads rt out = Raise e -> e <> JSONDecodeError ->
      (forall err : string,
          subprocess_run rt ["pac"; "org"; "list"; "--json"] 30 = Completed 0 out err ->
          get_environments rt = Raise e) /\
      (forall err : string,
          subprocess_run rt ["pac"; "solution"; "list"; "--json"] 30 = Completed 0 out err ->
          get_solutions rt = Raise e)).
Proof.
  split.
  - intros Hbad. split; intros err Hrun.
    + unfold get_environments.
      pose proof (listing_decoded ["org"; "list"; "--json"] out err Hrun) as E.
      cbn [map] in E. rewrite E, Hbad. reflexivity.
    + unfold get_solutions.
      pose proof (listing_decoded ["solution"; "list"; "--json"] out err Hrun) as E.
      cbn [map] in E. rewrite E, Hbad. reflexivity.
  - intros e Hbad Hne. split; intros err Hrun.
    + unfold get_environments.
      pose proof (listing_decoded ["org"; "list"; "--json"] out err Hrun) as E.
      cbn [map] in E. rewrite E, Hbad. destruct e; try reflexivity.
      contradiction.
    + unfold get_solutions.
      pose proof (listing_decoded ["solution"; "list"; "--json"] out err Hrun) as E.
      cbn [map] in E. rewrite E, Hbad. destruct e; try reflexivity.
      contradiction.
Qed.

(** C4, as the code has it.  When the listing command exits with code 0 and
    [json.loads] decodes its output to an array, [get_environments] and
    [get_solutions] return that very array: the same number of elements,
    each the decoded value.  When [json.loads] refuses the output with an
    exception other than [JSONDecodeError], as it does on a well-formed
    array nested too deep, they raise that exception. *)
Theorem json_array_returned_as_decoded (out : string) :
  (forall items : list pyval,
      json_loads rt out = Ok (PyList items) ->
      (forall err : string,
          subprocess_run rt ["pac"; "org"; "list"; "--json"] 30 = Completed 0 out err ->
          exists returned : list pyval,
            get_environments rt = Ok (PyList returned) /\
            returned = items /\
            List.length returned = List.length items /\
            forall i : nat, nth_error returned i = nth_error items i) /\
      (forall err : string,
          subprocess_run rt ["pac"; "solution"; "list"; "--json"] 30 = Completed 0 out err ->
          exists returned : list pyval,
            get_solutions rt = Ok (PyList returned) /\
            returned = items /\
            List.length returned = List.length items /\
            forall i : nat, nth_error returned i = nth_error items i)) /\
  (forall e : exn,
      json_loads rt out = Raise e -> e <> JSONDecodeError ->
      (forall err : string,
          subprocess_run rt ["pac"; "org"; "list"; "--json"] 30 = Completed 0 out err ->
          get_environments rt = Raise e) /\
      (forall err : string,
          subprocess_run rt ["pac"; "solution"; "list"; "--json"] 30 = Completed 0 out err ->
          get_solutions rt = Raise e)).
Proof.
  split.
  - intros items Hdec. split; intros err Hrun; exists items.
    + unfold get_environments.
      pose proof (listing_decoded ["org"; "list"; "--json"] out err Hrun) as E.
      cbn [map] in E. rewrite E, Hdec. auto.
    + unfold get_solutions.
      pose proof (listing_decoded ["solution"; "list"; "--json"] out err Hrun) as E.
      cbn [map] in E. rewrite E, Hdec. auto.
  - intros e Hbad Hne. split; intros err Hrun.
    + unfold get_environments.
      pose proof (listing_decoded ["org"; "list"; "--json"] out err Hrun) as E.
      cbn [map] in E. rewrite E, Hbad. destruct e; try reflexivity.
      contradiction.
    + unfold get_solutions.
      pose proof (listing_decoded ["solution"; "list"; "--json"] out err Hrun) as E.
      cbn [map] in E. rewrite E, Hbad. destruct e; try reflexivity.
      contradiction.
Qed.

Lemma reported_run (args : list string) (timeout : Z) :
  (r <- run_command rt (map PyStr args) (Some timeout) ;;
   if success r then Ok true else Ok false) =
  Spec.reported (subprocess_run rt ("pac" :: args) timeout).
Proof.
  rewrite run_command_strings.
  destruct (subprocess_run rt ("pac" :: args) timeout) as [rc out err| |e]; cbn;
    try reflexivity.
  destruct (rc =? 0); reflexivity.
Qed.

(** C9.  [export_solution] runs the fixed export template followed by
    [--managed] exactly when a managed export is requested, with a timeout
    of 300 seconds; [import_solution] runs the fixed import template followed
    by [--publish-changes] exactly when publishing is requested, with a
    timeout of 600 seconds, longer than the export's; a command run without
    a timeout of its own gets 30 seconds. *)
Theorem solution_commands_and_timeouts
        (solution_name path : string) (flag : bool) :
  (export_command solution_name path flag =
     ["solution"; "export"; "--name"; solution_name; "--path"; path]
     ++ (if flag then ["--managed"] else [])) /\
  (In "--managed" (skipn 6 (export_command solution_name path flag))
   <-> flag = true) /\
  (solution_name <> "--managed" -> path <> "--managed" ->
   (In "--managed" (export_command solution_name path flag) <-> flag = true)) /\
  export_solution rt solution_name path flag =
    Spec.reported
      (subprocess_run rt ("pac" :: export_command solution_name path flag) 300) /\
  (import_command path flag =
     ["solution"; "import"; "--path"; path]
     ++ (if flag then ["--publish-changes"] else [])) /\
  (In "--publish-changes" (skipn 4 (import_command path flag))
   <-> flag = true) /\
  (path <> "--publish-changes" ->
   (In "--publish-changes" (import_command path flag) <-> flag = true)) /\
  import_solution rt path flag =
    Spec.reported
      (subprocess_run rt ("pac" :: import_command path flag) 600) /\
  export_timeout < import_timeout /\
  (forall command : list pyval,
      run_command rt command None = run_command rt command (Some 30)).
Proof.
  repeat match goal with |- _ /\ _ => split end.
  - destruct flag; reflexivity.
  - destruct flag; cbn; intuition discriminate.
  - intros Hn Hp. destruct flag; cbn.
    + intuition.
    + split; [|discriminate].
      intros H.
      repeat (destruct H as [H|H]; [try discriminate; congruence|]).
      destruct H.
  - unfold export_solution, export_timeout. apply reported_run.
  - destruct flag; reflexivity.
  - destruct flag; cbn; intuition discriminate.
  - intros Hp. destruct flag; cbn.
    + intuition.
    + split; [|discriminate].
      intros H.
      repeat (destruct H as [H|H]; [try discriminate; congruence|]).
      destruct H.
  - unfold import_solution, import_timeout. apply reported_run.
  - reflexivity.
  - intros command. apply run_command_default.
Qed.

End WrapperFacts.

(* ================================================================== *)
(** ** The environment directory: refresh and selection *)
(* ================================================================== *)

Section ManagerFacts.

Import Environment.
Variable rt : Runtime.
Variable cli : PacCli.

(** The loop of [refresh_environments] appends the environments of the
    longest convertible prefix and stops at the first exception. *)
Lemma refresh_loop_appends (elems : list pyval) (self : EnvironmentManager) :
  exists r : result unit,
    for_each elems
      (fun env =>
         environment <~ lift (make_environment rt env) ;;
         append_environment environment) self =
    (r,
     {| _environments :=
          {| list_id := list_id (_environments self);
             list_items := list_items (_environments self)
                           ++ Spec.converted_prefix rt elems |};
        _current_environment := _current_environment self |}) /\
    (r = Ok tt \/ exists e, r = Raise e) /\
    (r = Ok tt <->
     forallb (fun env => match make_environment rt env with
                         | Ok _ => true
                         | Raise _ => false
                         end) elems = true).
Proof.
  revert self. induction elems as [|env rest IH]; intros self.
  - exists (Ok tt). cbn. rewrite app_nil_r.
    destruct self as [[i l] c]; cbn. intuition.
  - cbn [for_each Spec.converted_prefix forallb].
    unfold bindM at 1. unfold bindM at 1. unfold lift at 1.
    destruct (make_environment rt env) as [environment|e].
    + unfold append_environment at 1.
      match goal with
      | |- context [for_each rest ?b ?s] => destruct (IH s) as (r & Hr & Hor & Hiff)
      end.
      exists r. rewrite Hr. cbn. rewrite <- app_assoc. cbn. auto.
    + exists (Raise e). rewrite app_nil_r.
      destruct self as [[i l] c]; cbn.
      split; [reflexivity|]. split; [eauto|]. split; discriminate.
Qed.

(** What a refresh does, case by case. *)
Lemma refresh_environments_cases (self : EnvironmentManager) :
  refresh_environments rt cli self =
  match cli_get_environments cli with
  | Raise _ => (Ok false, self)
  | Ok env_data =>
      (Ok (Spec.convertible rt env_data),
       Spec.replaced self (Spec.converted_prefix rt (Spec.visited env_data)))
  end.
Proof.
  unfold refresh_environments, catch, refresh_body.
  unfold bindM at 1. unfold lift at 1.
  destruct (cli_get_environments cli) as [env_data|e]; [|reflexivity].
  unfold bindM at 1. unfold reset_environments at 1.
  unfold bindM at 1. unfold lift at 1.
  unfold Spec.convertible, Spec.visited.
  destruct (py_iter env_data) as [elems|e]; [|reflexivity].
  unfold bindM at 1.
  match goal with
  | |- context [for_each elems ?b ?s] =>
      destruct (refresh_loop_appends elems s) as (r & Hr & Hor & Hiff)
  end.
  rewrite Hr. cbn.
  destruct Hor as [->|[e ->]].
  - cbn. destruct Hiff as [Hiff _]. rewrite (Hiff eq_refl). reflexivity.
  - cbn. destruct (forallb _ elems) eqn:Hall.
    + destruct Hiff as [_ Hiff]. discriminate (Hiff eq_refl).
    + reflexivity.
Qed.

(** What a selection does, case by case. *)
Lemma select_environment_cases
      (environment : PowerPlatformEnvironment) (self : EnvironmentManager) :
  select_environment cli environment self =
  match cli_select_environment cli (url environment) with
  | Ok true => (Ok true, Spec.selected self environment)
  | Ok false | Raise _ => (Ok false, self)
  end.
Proof.
  unfold select_environment, catch, select_body, bindM, lift.
  destruct (cli_select_environment cli (url environment)) as [[|]|e];
    reflexivity.
Qed.

End ManagerFacts.

Section RefreshAndSelect.

Import Environment.

(** C1, as the code has it.  A refresh never lets an exception through and
    never touches the selection.  When the facade call raises, it returns
    false and the manager is exactly what it was: the catalog is the same
    list object with the same contents.  When the facade call returns and
    the refresh still fails (the value cannot be iterated, or a record
    cannot be converted), it returns false after the catalog has been
    replaced by a new list object that holds the environments converted
    before the failure. *)
Theorem refresh_failure_behaviour
        (rt : Runtime) (cli : PacCli) (self : EnvironmentManager) :
  (exists (b : bool) (self' : EnvironmentManager),
      refresh_environments rt cli self = (Ok b, self') /\
      _current_environment self' = _current_environment self) /\
  (forall e : exn,
      cli_get_environments cli = Raise e ->
      refresh_environments rt cli self = (Ok false, self)) /\
  (forall (env_data : pyval) (self' : EnvironmentManager),
      cli_get_environments cli = Ok env_data ->
      refresh_environments rt cli self = (Ok false, self') ->
      self' = Spec.replaced self
                (Spec.converted_prefix rt (Spec.visited env_data)) /\
      list_id (_environments self') <> list_id (_environments self)).
Proof.
  rewrite refresh_environments_cases.
  destruct (cli_get_environments cli) as [env_data|e0].
  - split; [|split].
    + eexists _, _. split; reflexivity.
    + discriminate.
    + intros v self' Hv Hr. injection Hv as <-. injection Hr as _ <-.
      split; [reflexivity|]. cbn. lia.
  - split; [|split].
    + eexists _, _. split; reflexivity.
    + reflexivity.
    + discriminate.
Qed.

(** C1 fails as stated: the listing command exits with code 0 and prints
    an array whose first element is an empty object and whose second
    element is the number 7.  The refresh returns false, and the catalog,
    which was list 0 holding [prod_eu], is now list 1 holding the
    environment made from the empty object. *)
Lemma refresh_failure_replaces_catalog :
  refresh_environments
    (Examples.exits 0 "[{}, 7]")
    (wrapper_cli (Examples.exits 0 "[{}, 7]"))
    (Examples.manager [Examples.prod_eu]) =
  (Ok false,
   {| _environments := {| list_id := 1; list_items := [Examples.blank] |};
      _current_environment := None |}) /\
  _environments (Examples.manager [Examples.prod_eu]) =
    {| list_id := 0; list_items := [Examples.prod_eu] |} /\
  name Examples.blank = PyStr "" /\
  name Examples.prod_eu = PyStr "prod-eu".
Proof.
  split; [vm_compute; reflexivity|]. repeat split.
Qed.

Lemma refresh_failure_behaviour_witness :
  refresh_environments
    Examples.missing (wrapper_cli Examples.missing)
    (Examples.manager [Examples.prod_eu]) =
  (Ok false, Examples.manager [Examples.prod_eu]).
Proof.
  apply (proj1 (proj2 (refresh_failure_behaviour
                         Examples.missing (wrapper_cli Examples.missing)
                         (Examples.manager [Examples.prod_eu])))
               FileNotFoundError).
  reflexivity.
Defined.

(** C6.  When the facade reports failure, [select_environment] returns
    false and leaves the manager as it was; when it reports success, the
    argument becomes the current environment, whether or not it is in the
    catalog; nothing else changes the selection.  The wrapper reports
    failure for a non-zero exit code and for a timeout. *)
Theorem select_failure_keeps_selection
        (cli : PacCli) (environment : PowerPlatformEnvironment)
        (self : EnvironmentManager) :
  (cli_select_environment cli (url environment) = Ok false ->
   select_environment cli environment self = (Ok false, self)) /\
  (cli_select_environment cli (url environment) = Ok true ->
   select_environment cli environment self =
     (Ok true, Spec.selected self environment)) /\
  (forall (r : result bool) (self' : EnvironmentManager),
      select_environment cli environment self = (r, self') ->
      _current_environment self' <> _current_environment self ->
      cli_select_environment cli (url environment) = Ok true /\ r = Ok true) /\
  (forall (rt : Runtime) (u : string),
      url environment = PyStr u ->
      (subprocess_run rt ["pac"; "org"; "select"; "--environment"; u] 30
         = TimeoutExpired \/
       exists (rc : Z) (out err : string),
         rc <> 0 /\
         subprocess_run rt ["pac"; "org"; "select"; "--environment"; u] 30
           = Completed rc out err) ->
      select_environment (wrapper_cli rt) environment self = (Ok false, self)).
Proof.
  repeat match goal with |- _ /\ _ => split end.
  - intros H. rewrite select_environment_cases, H. reflexivity.
  - intros H. rewrite select_environment_cases, H. reflexivity.
  - intros r self'. rewrite select_environment_cases.
    destruct (cli_select_environment cli (url environment)) as [[|]|e];
      intros H; injection H as <- <-; intros Hne;
      try (exfalso; apply Hne; reflexivity).
    split; reflexivity.
  - intros rt u Hu Hout. rewrite select_environment_cases. cbn.
    rewrite Hu. unfold PACCLIWrapper.select_environment.
    pose proof (reported_run rt ["org"; "select"; "--environment"; u] 30) as E.
    cbn [map] in E. rewrite <- run_command_default in E.
    rewrite E.
    destruct Hout as [->|(rc & out & err & Hrc & ->)]; cbn.
    + reflexivity.
    + apply Z.eqb_neq in Hrc. rewrite Hrc. reflexivity.
Qed.

End RefreshAndSelect.

Section SelectionExceptions.

Import Environment.

Lemma select_failure_keeps_selection_witness :
  select_environment
    (wrapper_cli (Examples.exits 1 "")) Examples.prod_eu
    (Examples.manager [Examples.dev_us]) =
  (Ok false, Examples.manager [Examples.dev_us]).
Proof.
  apply (proj2 (proj2 (proj2
           (select_failure_keeps_selection
              (wrapper_cli (Examples.exits 1 "")) Examples.prod_eu
              (Examples.manager [Examples.dev_us]))))
           (Examples.exits 1 "") "https://org.example" eq_refl).
  right. exists 1, "", "". split; [discriminate | reflexivity].
Defined.

(** C10.  Whatever exception the facade call raises inside
    [select_environment], the method returns false instead of raising and
    leaves the manager, hence the current environment, as it was; so the
    method returns in every case. *)
Theorem select_catches_exceptions
        (cli : PacCli) (environment : PowerPlatformEnvironment)
        (self : EnvironmentManager) :
  (forall e : exn,
      cli_select_environment cli (url environment) = Raise e ->
      select_environment cli environment self = (Ok false, self) /\
      get_current_environment (snd (select_environment cli environment self))
        = get_current_environment self) /\
  (exists (b : bool) (self' : EnvironmentManager),
      select_environment cli environment self = (Ok b, self')).
Proof.
  rewrite select_environment_cases.
  destruct (cli_select_environment cli (url environment)) as [[|]|e0].
  - split; [discriminate|]. eexists _, _. reflexivity.
  - split; [discriminate|]. eexists _, _. reflexivity.
  - split; [|eexists _, _; reflexivity].
    intros e _. split; reflexivity.
Qed.

Lemma select_catches_exceptions_witness :
  select_environment
    (wrapper_cli Examples.missing) Examples.prod_eu
    (Examples.manager [Examples.dev_us]) =
  (Ok false, Examples.manager [Examples.dev_us]).
Proof.
  apply (proj1 (select_catches_exceptions
                  (wrapper_cli Examples.missing) Examples.prod_eu
                  (Examples.manager [Examples.dev_us]))
               FileNotFoundError).
  reflexivity.
Defined.

End SelectionExceptions.

(* ================================================================== *)
(** ** Timestamps *)
(* ================================================================== *)

Section Timestamps.

Import Environment.

Lemma records_convert (rt : Runtime) (records : list (list (string * pyval))) :
  Spec.converted_prefix rt (map PyDict records)
    = map (Spec.environment_of rt) records /\
  forallb (fun env => match make_environment rt env with
                      | Ok _ => true
                      | Raise _ => false
                      end) (map PyDict records) = true.
Proof.
  induction records as [|entries rest [IHp IHa]]; cbn.
  - split; reflexivity.
  - fold (Spec.converted_prefix rt (map PyDict rest)).
    rewrite IHp. split; [reflexivity | exact IHa].
Qed.

(** A list of records always refreshes, whatever their timestamps are. *)
Lemma refresh_records
      (rt : Runtime) (cli : PacCli) (self : EnvironmentManager)
      (records : list (list (string * pyval))) :
  cli_get_environments cli = Ok (PyList (map PyDict records)) ->
  refresh_environments rt cli self =
    (Ok true, Spec.replaced self (map (Spec.environment_of rt) records)).
Proof.
  intros H. rewrite refresh_environments_cases, H.
  unfold Spec.convertible, Spec.visited. cbn [py_iter].
  destruct (records_convert rt records) as [-> ->]. reflexivity.
Qed.

Lemma try_formats_all_fail (rt : Runtime) (s : string) (fmts : list string) :
  (forall fmt, In fmt fmts -> strptime rt s fmt = Raise ValueError) ->
  try_formats rt s fmts = Ok None.
Proof.
  induction fmts as [|fmt rest IH]; intros H; cbn.
  - reflexivity.
  - rewrite (H fmt (or_introl eq_refl)). apply IH.
    intros f Hf. apply H. right. exact Hf.
Qed.

Lemma truthy_nonempty (s : string) : s <> "" -> truthy (PyStr s) = true.
Proof.
  intros H. cbn. destruct (String.eqb s "") eqn:E.
  - apply String.eqb_eq in E. contradiction.
  - reflexivity.
Qed.

(** C5.  The formats are tried in the order given and the first that parses
    gives the timestamp; a text no format parses gives no timestamp, and
    nothing is raised.  With CPython's [strptime], the three spellings of
    2024-01-15 10:30:00 parse to the same instant to the second, and
    [not-a-date] parses to nothing.  A list of records refreshes whatever
    their timestamps are, the unparsable ones becoming absent. *)
Theorem parse_datetime_policy :
  formats = ["%Y-%m-%dT%H:%M:%S.%fZ"; "%Y-%m-%dT%H:%M:%SZ"; "%Y-%m-%d %H:%M:%S"] /\
  (forall (rt : Runtime) (s : string),
      s <> "" ->
      (forall dt,
          strptime rt s "%Y-%m-%dT%H:%M:%S.%fZ" = Ok dt ->
          _parse_datetime rt (PyStr s) = Some dt) /\
      (forall dt,
          strptime rt s "%Y-%m-%dT%H:%M:%S.%fZ" = Raise ValueError ->
          strptime rt s "%Y-%m-%dT%H:%M:%SZ" = Ok dt ->
          _parse_datetime rt (PyStr s) = Some dt) /\
      (forall dt,
          strptime rt s "%Y-%m-%dT%H:%M:%S.%fZ" = Raise ValueError ->
          strptime rt s "%Y-%m-%dT%H:%M:%SZ" = Raise ValueError ->
          strptime rt s "%Y-%m-%d %H:%M:%S" = Ok dt ->
          _parse_datetime rt (PyStr s) = Some dt) /\
      ((forall fmt, In fmt formats -> strptime rt s fmt = Raise ValueError) ->
       _parse_datetime rt (PyStr s) = None)) /\
  (_parse_datetime Examples.plain (PyStr "2024-01-15T10:30:00.123456Z")
     = Some (mk_datetime 2024 1 15 10 30 0 123456) /\
   _parse_datetime Examples.plain (PyStr "2024-01-15T10:30:00Z")
     = Some (mk_datetime 2024 1 15 10 30 0 0) /\
   _parse_datetime Examples.plain (PyStr "2024-01-15 10:30:00")
     = Some (mk_datetime 2024 1 15 10 30 0 0) /\
   Spec.to_second (mk_datetime 2024 1 15 10 30 0 123456)
     = Spec.to_second (mk_datetime 2024 1 15 10 30 0 0) /\
   _parse_datetime Examples.plain (PyStr "not-a-date") = None) /\
  (forall (rt : Runtime) (cli : PacCli) (self : EnvironmentManager)
          (records : list (list (string * pyval))),
      cli_get_environments cli = Ok (PyList (map PyDict records)) ->
      refresh_environments rt cli self =
        (Ok true, Spec.replaced self (map (Spec.environment_of rt) records))) /\
  (exists first second : PowerPlatformEnvironment,
      refresh_environments Examples.plain Examples.listing init =
        (Ok true, Spec.replaced init [first; second]) /\
      name first = PyStr "dev-us" /\ created_time first = None /\
      name second = PyStr "prod-eu" /\
      created_time second = Some (mk_datetime 2024 1 15 10 30 0 0)).
Proof.
  split; [reflexivity|]. split; [|split; [|split]].
  - intros rt s Hs. unfold _parse_datetime.
    rewrite (truthy_nonempty s Hs). cbn [negb].
    repeat split.
    + intros dt H. cbn. rewrite H. reflexivity.
    + intros dt H1 H2. cbn. rewrite H1, H2. reflexivity.
    + intros dt H1 H2 H3. cbn. rewrite H1, H2, H3. reflexivity.
    + intros H. rewrite (try_formats_all_fail rt s formats H). reflexivity.
  - repeat split; vm_compute; reflexivity.
  - intros rt cli self records. apply refresh_records.
  - eexists _, _. split.
    + apply (refresh_records Examples.plain Examples.listing init
               [[("EnvironmentName", PyStr "dev-us");
                 ("CreatedTime", PyStr "not-a-date")];
                [("EnvironmentName", PyStr "prod-eu");
                 ("CreatedTime", PyStr "2024-01-15T10:30:00Z")]]).
      reflexivity.
    + repeat split; vm_compute; reflexivity.
Qed.

Lemma parse_datetime_policy_witness :
  _parse_datetime Examples.plain (PyStr "2024-01-15T10:30:00Z")
    = Some (mk_datetime 2024 1 15 10 30 0 0).
Proof.
  refine (proj1 (proj2 (proj1 (proj2 parse_datetime_policy)
                          Examples.plain "2024-01-15T10:30:00Z" _))
            (mk_datetime 2024 1 15 10 30 0 0) _ _).
  - discriminate.
  - vm_compute; reflexivity.
  - vm_compute; reflexivity.
Defined.

End Timestamps.

(* ================================================================== *)
(** ** Search *)
(* ================================================================== *)

Section Search.

Import Environment.

Lemma starts_with_spec (needle hay : string) :
  starts_with needle hay = true <->
  exists post : string, hay = (needle ++ post)%string.
Proof.
  revert hay. induction needle as [|a n IH]; intros hay.
  - cbn. split; [intros _; exists hay; reflexivity | reflexivity].
  - destruct hay as [|b h]; cbn.
    + split; [discriminate | intros [post H]; discriminate].
    + rewrite andb_true_iff, Ascii.eqb_eq, IH. split.
      * intros [-> [post ->]]. exists post. reflexivity.
      * intros [post H]. injection H as -> ->. split; [reflexivity|].
        exists post. reflexivity.
Qed.

Lemma str_in_spec (needle hay : string) :
  str_in needle hay = true <-> Spec.contains needle hay.
Proof.
  unfold Spec.contains. induction hay as [|c h IH].
  - cbn. rewrite orb_false_r, starts_with_spec. split.
    + intros [post H]. exists ""%string, post. exact H.
    + intros (pre & post & H). destruct pre; [|discriminate].
      exists post. exact H.
  - cbn [str_in]. rewrite orb_true_iff, IH, starts_with_spec. split.
    + intros [[post H]|(pre & post & H)].
      * exists ""%string, post. exact H.
      * exists (String c pre), post. cbn. rewrite H. reflexivity.
    + intros (pre & post & H). destruct pre as [|c' pre].
      * left. exists post. exact H.
      * right. cbn in H. injection H as _ H. exists pre, post. exact H.
Qed.








(** The searches the specification lists. *)
Example search_prod :
  search_environments Examples.plain
    (Examples.manager [Examples.prod_eu; Examples.dev_us]) "prod"
  = Ok [Examples.prod_eu].
Proof. vm_compute. reflexivity. Qed.

Example search_empty :
  search_environments Examples.plain
    (Examples.manager [Examples.prod_eu; Examples.dev_us]) ""
  = Ok [Examples.prod_eu; Examples.dev_us].
Proof. vm_compute. reflexivity. Qed.

End Search.

(* ================================================================== *)
(** ** Summary *)
(* ================================================================== *)

Section SummaryFacts.

Import Environment.

Lemma occurrences_snoc (k k' : string) (labels : list string) :
  Spec.occurrences k (labels ++ [k']) =
  (Spec.occurrences k labels + (if String.eqb k k' then 1 else 0))%nat.
Proof.
  unfold Spec.occurrences. rewrite filter_app, length_app. cbn.
  destruct (String.eqb k k'); reflexivity.
Qed.

Lemma occurrences_pos (k : string) (labels : list string) :
  In k labels <-> (0 < Spec.occurrences k labels)%nat.
Proof.
  unfold Spec.occurrences. induction labels as [|l rest IH]; cbn.
  - split; [contradiction | lia].
  - destruct (String.eqb k l) eqn:E.
    + apply String.eqb_eq in E. subst l. cbn. split; [lia | auto].
    + apply String.eqb_neq in E. rewrite <- IH. split.
      * intros [H|H]; [congruence | exact H].
      * auto.
Qed.

Lemma key_eqb_str (a b : string) : key_eqb (PyStr a) (PyStr b) = String.eqb a b.
Proof. reflexivity. Qed.

Lemma counts_get_set (d : counts) (k k' : string) (n : Z) :
  Spec.string_keys d ->
  counts_get (counts_set d (PyStr k) n) (PyStr k') =
  if String.eqb k k' then n else counts_get d (PyStr k').
Proof.
  unfold Spec.string_keys. induction 1 as [|[key m] rest [k0 Hk0] _ IH]; cbn in *.
  - reflexivity.
  - subst key. cbn. destruct (String.eqb k0 k) eqn:E0; cbn.
    + apply String.eqb_eq in E0. subst k0.
      destruct (String.eqb k k'); reflexivity.
    + destruct (String.eqb k0 k') eqn:E1.
      * apply String.eqb_eq in E1. subst k'.
        rewrite String.eqb_sym in E0. rewrite E0. reflexivity.
      * exact IH.
Qed.

Lemma counts_set_keys (d : counts) (k : string) (n : Z) :
  Spec.string_keys d ->
  Spec.string_keys (counts_set d (PyStr k) n) /\
  (forall key, In key (map fst (counts_set d (PyStr k) n)) <->
               In key (map fst d) \/ key = PyStr k) /\
  (NoDup (map fst d) -> NoDup (map fst (counts_set d (PyStr k) n))) /\
  (forall key m, In (key, m) (counts_set d (PyStr k) n) ->
                 In (key, m) d \/ m = n).
Proof.
  unfold Spec.string_keys.
  induction 1 as [|[key m] rest [k0 Hk0] Hrest IH]; cbn in *.
  - split; [|split; [|split]].
    + repeat constructor. exists k. reflexivity.
    + intros key. intuition.
    + intros _. constructor; [intros [] | constructor].
    + intros key m [H|[]]. injection H as _ <-. auto.
  - subst key. cbn. destruct (String.eqb k0 k) eqn:E0.
    + apply String.eqb_eq in E0. subst k0.
      split; [|split; [|split]].
      * constructor; [exists k; reflexivity | exact Hrest].
      * intros key. cbn. intuition.
      * trivial.
      * intros key m' [H|H]; [injection H as <- <-; auto | auto].
    + destruct IH as (IHk & IHin & IHnd & IHv).
      split; [|split; [|split]].
      * constructor; [exists k0; reflexivity | exact IHk].
      * intros key. cbn. rewrite IHin. tauto.
      * cbn. intros Hnd. inversion Hnd as [|? ? Hnin Hnd']; subst.
        constructor; [|auto].
        rewrite IHin. intros [H|H]; [contradiction|].
        injection H as ->. rewrite String.eqb_refl in E0. discriminate.
      * intros key m' [H|H]; [auto|]. destruct (IHv key m' H); auto.
Qed.

Lemma counts_get_in (d : counts) (k : string) :
  Spec.string_keys d ->
  counts_get d (PyStr k) <> 0 ->
  In (PyStr k, counts_get d (PyStr k)) d.
Proof.
  unfold Spec.string_keys. induction 1 as [|[key m] rest [k0 Hk0] _ IH]; cbn in *.
  - intros H; contradiction.
  - subst key. cbn. destruct (String.eqb k0 k) eqn:E0.
    + apply String.eqb_eq in E0. subst k0. auto.
    + auto.
Qed.

Lemma counts_in_get (d : counts) (k : string) (n : Z) :
  Spec.string_keys d -> NoDup (map fst d) ->
  In (PyStr k, n) d -> counts_get d (PyStr k) = n.
Proof.
  unfold Spec.string_keys. induction 1 as [|[key m] rest [k0 Hk0] _ IH]; cbn in *.
  - contradiction.
  - subst key. intros Hnd [H|H].
    + injection H as -> ->. cbn. rewrite String.eqb_refl. reflexivity.
    + inversion Hnd as [|? ? Hnin Hnd']; subst. cbn.
      destruct (String.eqb k0 k) eqn:E0.
      * apply String.eqb_eq in E0. subst k0. exfalso. apply Hnin.
        change (PyStr k) with (fst (PyStr k, n)). apply in_map. exact H.
      * auto.
Qed.

(** An empty mapping counts no labels. *)
Lemma counted_nil : Spec.counted [] [].
Proof.
  repeat split.
  - constructor.
  - constructor.
  - intros key n [].
Qed.

(** Counting one more countable value keeps the mapping right. *)
Lemma count_one_counted (d : counts) (labels : list string) (v : pyval) :
  Spec.countable v ->
  Spec.counted d labels ->
  exists d' : counts,
    count_one d (py_or v Unknown) = Ok d' /\
    Spec.counted d' (labels ++ [Spec.label v]).
Proof.
  intros Hv (Hk & Hnd & Hget & Hpos).
  assert (py_or v Unknown = PyStr (Spec.label v)) as ->.
  { unfold py_or, Unknown. destruct Hv as [[s ->]|Hf].
    - cbn. destruct (String.eqb s ""); reflexivity.
    - rewrite Hf. destruct v; try reflexivity.
      cbn in Hf. cbn. destruct (String.eqb s ""); [reflexivity|discriminate]. }
  unfold count_one. cbn [check_hashable bind].
  eexists. split; [reflexivity|].
  destruct (counts_set_keys d (Spec.label v)
              (counts_get d (PyStr (Spec.label v)) + 1) Hk)
    as (Hk' & Hin' & Hnd' & Hv').
  repeat split.
  - exact Hk'.
  - exact (Hnd' Hnd).
  - intros k. rewrite (counts_get_set d (Spec.label v) k _ Hk).
    rewrite occurrences_snoc. rewrite String.eqb_sym.
    destruct (String.eqb k (Spec.label v)) eqn:E.
    + apply String.eqb_eq in E. subst k. rewrite Hget. lia.
    + rewrite Hget. lia.
  - intros key n Hin. destruct (Hv' key n Hin) as [H| ->].
    + exact (Hpos key n H).
    + rewrite Hget. lia.
Qed.

(** A mapping the loop keeps right tallies the labels. *)
Lemma counted_tallies (d : counts) (labels : list string) :
  Spec.counted d labels -> Spec.tallies d labels.
Proof.
  intros (Hk & Hnd & Hget & Hpos).
  assert (forall k, In (PyStr k) (map fst d) <-> In k labels) as Hkeys.
  { intros k. rewrite occurrences_pos. split.
    - intros Hin. apply in_map_iff in Hin. destruct Hin as ([key n] & Hfst & Hin).
      cbn in Hfst. subst key.
      pose proof (counts_in_get d k n Hk Hnd Hin) as Hg.
      pose proof (Hpos _ _ Hin). rewrite Hget in Hg. lia.
    - intros Hocc.
      change (PyStr k) with (fst (PyStr k, counts_get d (PyStr k))).
      apply in_map. apply counts_get_in; [exact Hk|].
      rewrite Hget. lia. }
  repeat split.
  - exact Hnd.
  - intros key Hin. apply in_map_iff in Hin.
    destruct Hin as (kv & <- & Hin).
    unfold Spec.string_keys in Hk. rewrite Forall_forall in Hk. exact (Hk kv Hin).
  - apply Hkeys.
  - apply Hkeys.
  - intros k Hin. rewrite <- Hget. apply counts_get_in; [exact Hk|].
    rewrite Hget. apply occurrences_pos in Hin. lia.
Qed.

End SummaryFacts.

Section SummaryLoop.

Import Environment.

Lemma labels_of_snoc (field : PowerPlatformEnvironment -> pyval)
      (done : list PowerPlatformEnvironment) (env : PowerPlatformEnvironment) :
  Spec.labels_of field (done ++ [env])
    = Spec.labels_of field done ++ [Spec.label (field env)].
Proof. unfold Spec.labels_of. rewrite map_app. reflexivity. Qed.

(** The loop of the summary counts the three fields of every environment
    it visits and leaves the total alone. *)
Lemma summary_loop_counted (envs : list PowerPlatformEnvironment) :
  forall (done : list PowerPlatformEnvironment) (summary : Summary),
    Forall Spec.countable_fields envs ->
    Spec.counted (by_type summary) (Spec.labels_of environment_type done) ->
    Spec.counted (by_region summary) (Spec.labels_of region done) ->
    Spec.counted (by_state summary) (Spec.labels_of state done) ->
    exists summary' : Summary,
      summary_loop envs summary = Ok summary' /\
      total summary' = total summary /\
      Spec.counted (by_type summary')
        (Spec.labels_of environment_type (done ++ envs)) /\
      Spec.counted (by_region summary')
        (Spec.labels_of region (done ++ envs)) /\
      Spec.counted (by_state summary')
        (Spec.labels_of state (done ++ envs)).
Proof.
  induction envs as [|env rest IH]; intros done summary Hall Ht Hr Hs.
  - exists summary. rewrite app_nil_r. cbn. auto.
  - inversion Hall as [|? ? (Hvt & Hvr & Hvs) Hrest]; subst.
    destruct (count_one_counted _ _ _ Hvt Ht) as (t & Et & Ht').
    destruct (count_one_counted _ _ _ Hvr Hr) as (r & Er & Hr').
    destruct (count_one_counted _ _ _ Hvs Hs) as (s & Es & Hs').
    rewrite <- labels_of_snoc in Ht', Hr', Hs'.
    cbn [summary_loop]. unfold summary_step. rewrite Et. cbn [bind].
    rewrite Er. cbn [bind]. rewrite Es. cbn [bind].
    destruct (IH (done ++ [env])
                {| total := total summary; by_type := t;
                   by_region := r; by_state := s |}
                Hrest Ht' Hr' Hs')
      as (summary' & Hloop & Htot & Ht'' & Hr'' & Hs'').
    exists summary'. rewrite <- app_assoc in Ht'', Hr'', Hs''. cbn in *. auto.
Qed.

(** C8, as the code has it.  On a catalog whose type, region and state
    fields are strings or
    values that test false, [get_environment_summary] returns the number
    of environments as total and, for each of the three fields, a mapping
    whose keys are the labels that occur, each once and each mapped to its
    number of occurrences, where the label of an empty or missing value is
    [Unknown] and the label of any other string is the string itself. *)
Theorem summary_counts (self : EnvironmentManager) :
  Forall Spec.countable_fields (get_environments self) ->
  exists summary : Summary,
    get_environment_summary self = Ok summary /\
    total summary = Z.of_nat (List.length (get_environments self)) /\
    Spec.tallies (by_type summary)
      (Spec.labels_of environment_type (get_environments self)) /\
    Spec.tallies (by_region summary)
      (Spec.labels_of region (get_environments self)) /\
    Spec.tallies (by_state summary)
      (Spec.labels_of state (get_environments self)) /\
    Spec.label PyNone = "Unknown"%string /\
    Spec.label (PyStr "") = "Unknown"%string /\
    (forall s : string, s <> ""%string -> Spec.label (PyStr s) = s).
Proof.
  intros Hall. unfold get_environment_summary.
  fold (get_environments self).
  destruct (summary_loop_counted (get_environments self) []
              {| total := Z.of_nat (List.length (get_environments self));
                 by_type := []; by_region := []; by_state := [] |}
              Hall counted_nil counted_nil counted_nil)
    as (summary & Hloop & Htot & Ht & Hr & Hs).
  exists summary. cbn [app] in *.
  split; [exact Hloop|]. split; [exact Htot|].
  split; [apply counted_tallies; exact Ht|].
  split; [apply counted_tallies; exact Hr|].
  split; [apply counted_tallies; exact Hs|].
  split; [reflexivity|]. split; [reflexivity|].
  intros s Hs0. cbn. destruct (String.eqb s "") eqn:E.
  - apply String.eqb_eq in E. contradiction.
  - reflexivity.
Qed.

Lemma summary_counts_witness :
  exists summary : Summary,
    get_environment_summary (Examples.manager Examples.four) = Ok summary /\
    total summary = 4 /\
    Spec.tallies (by_type summary)
      ["Sandbox"; "Sandbox"; "Production"; "Unknown"]%string.
Proof.
  assert (Forall Spec.countable_fields
            (get_environments (Examples.manager Examples.four))) as H.
  { cbn.
    repeat (apply Forall_cons;
            [unfold Spec.countable_fields, Spec.countable; cbn; repeat split;
             first [left; eexists; reflexivity | right; reflexivity] |]).
    apply Forall_nil. }
  destruct (summary_counts (Examples.manager Examples.four) H)
    as (summary & Hs & Ht & Hty & _).
  exists summary. split; [exact Hs|]. split; [exact Ht | exact Hty].
Defined.

(** C8 fails as stated: on a catalog with an environment whose type is
    a list that is not empty, which a refresh stores as it finds it,
    [get_environment_summary] raises [TypeError] and returns no total and
    no mapping. *)
Lemma summary_fails_on_list_type :
  environment_type Examples.listed_type = PyList [PyStr "Production"] /\
  get_environment_summary
    (Examples.manager [Examples.dev_us; Examples.listed_type])
  = Raise TypeError.
Proof. split; vm_compute; reflexivity. Qed.

(** The summary the specification lists. *)
Example summary_of_four :
  get_environment_summary (Examples.manager Examples.four) =
  Ok {| total := 4;
        by_type := [(PyStr "Sandbox", 2); (PyStr "Production", 1);
                    (PyStr "Unknown", 1)];
        by_region := [(PyStr "europe", 4)];
        by_state := [(PyStr "Ready", 4)] |}.
Proof. vm_compute. reflexivity. Qed.

End SummaryLoop.

(* ================================================================== *)
(** ** The facade on concrete platforms *)
(* ================================================================== *)

Section WrapperExamples.

Import PACCLIWrapper.

Lemma malformed_json_gives_empty_witness :
  get_environments (Examples.exits 0 "not json") = Ok (PyList []) /\
  get_solutions (Examples.exits 0 "not json") = Ok (PyList []).
Proof.
  destruct (proj1 (malformed_json_gives_empty
                     (Examples.exits 0 "not json") "not json") eq_refl)
    as [He Hs].
  split; [apply (He ""); reflexivity | apply (Hs ""); reflexivity].
Defined.

(** C3 fails as stated: the listing command exits with code 0 and prints
    one hundred thousand opening brackets, which is no JSON text.  The
    decoder raises [RecursionError], which the handler of
    [JSONDecodeError] does not catch, and both methods raise it. *)
Lemma undecodable_output_raises :
  subprocess_run (Examples.prints Examples.unclosed)
    ["pac"; "org"; "list"; "--json"] 30
    = Completed 0 Examples.unclosed "" /\
  CPython.leading_opens Examples.unclosed = 100000%N /\
  N.of_nat (String.length Examples.unclosed) = 100000%N /\
  get_environments (Examples.prints Examples.unclosed) = Raise RecursionError /\
  get_solutions (Examples.prints Examples.unclosed) = Raise RecursionError.
Proof.
  split; [reflexivity|]. repeat split; vm_compute; reflexivity.
Qed.

Lemma json_array_returned_as_decoded_witness :
  exists returned : list pyval,
    get_environments (Examples.exits 0 "[{}, 7]") = Ok (PyList returned) /\
    returned = [PyDict []; PyInt 7].
Proof.
  destruct (proj1 (proj1 (json_array_returned_as_decoded
                            (Examples.exits 0 "[{}, 7]") "[{}, 7]")
                         [PyDict []; PyInt 7] eq_refl) "" eq_refl)
    as (returned & Hr & Heq & _).
  exists returned. split; [exact Hr | exact Heq].
Defined.

(** C4 fails as stated: the listing command exits with code 0 and prints
    one hundred thousand arrays nested in one another, a well-formed JSON
    array of one element.  The decoder raises [RecursionError] and both
    methods raise it instead of returning a sequence of length one. *)
Lemma deep_array_raises :
  subprocess_run (Examples.prints Examples.nested)
    ["pac"; "org"; "list"; "--json"] 30
    = Completed 0 Examples.nested "" /\
  Examples.nested
    = Examples.repeated 100000 "[" (Examples.repeated 100000 "]" "") /\
  get_environments (Examples.prints Examples.nested) = Raise RecursionError /\
  get_solutions (Examples.prints Examples.nested) = Raise RecursionError.
Proof.
  split; [reflexivity|]. split; [reflexivity|].
  split; vm_compute; reflexivity.
Qed.

Lemma solution_commands_and_timeouts_witness :
  In "--managed"%string (export_command "Core" "out.zip" true) /\
  ~ In "--managed"%string (export_command "Core" "out.zip" false).
Proof.
  split.
  - apply (proj1 (proj2 (proj2 (solution_commands_and_timeouts
                                  Examples.plain "Core" "out.zip" true)))).
    + discriminate.
    + discriminate.
    + reflexivity.
  - intros H.
    apply (proj1 (proj2 (proj2 (solution_commands_and_timeouts
                                  Examples.plain "Core" "out.zip" false))))
      in H; discriminate.
Defined.

(** The timeout path of the runner on a platform where every command hangs. *)
Example run_command_times_out :
  run_command Examples.hangs [PyStr "org"; PyStr "list"] (Some 5) =
  Ok {| success := false; stdout := ""; stderr := "Command timed out";
        returncode := -1; command := "pac org list" |}.
Proof. reflexivity. Qed.

(** A non-string argument stops the runner before any process starts. *)
Example run_command_refuses_none :
  run_command Examples.plain [PyStr "org"; PyNone] None = Raise TypeError.
Proof. reflexivity. Qed.

End WrapperExamples.

(* ================================================================== *)
(** ** More of the command runner and the facade *)
(* ================================================================== *)

Section MoreWrapperFacts.

Import PACCLIWrapper.

Lemma str_items_ok (l : list pyval) :
  forallb Spec.is_str l = true ->
  exists ss : list string, str_items l = Ok ss.
Proof.
  induction l as [|v l IH]; cbn.
  - intros _. exists []. reflexivity.
  - destruct v; cbn; try discriminate.
    intros H. destruct (IH H) as [ss ->]. eexists. reflexivity.
Qed.

Lemma str_items_raise (l : list pyval) :
  forallb Spec.is_str l = false -> str_items l = Raise TypeError.
Proof.
  induction l as [|v l IH]; cbn.
  - discriminate.
  - destruct v; cbn; try reflexivity.
    intros H. rewrite (IH H). reflexivity.
Qed.

(** X11.  A command with an argument that is not a string raises [TypeError] on
    every platform, so before any process is started; a command of strings
    does not. *)
Theorem run_command_type_error (command : list pyval) (timeout : option Z) :
  (forall rt : Runtime, run_command rt command timeout = Raise TypeError) <->
  (exists v : pyval, In v command /\ Spec.is_str v = false).
Proof.
  destruct (forallb Spec.is_str command) eqn:E.
  - split.
    + intros H. specialize (H Examples.hangs). unfold run_command in H.
      cbn [str_items] in H.
      destruct (str_items_ok command E) as [ss Hss]. rewrite Hss in H.
      cbn in H. discriminate.
    + intros (v & Hin & Hv). rewrite forallb_forall in E.
      rewrite (E v Hin) in Hv. discriminate.
  - split.
    + intros _.
      assert (existsb (fun v => negb (Spec.is_str v)) command = true) as Hex.
      { clear timeout. induction command as [|v l IH]; cbn in *.
        - discriminate.
        - destruct (Spec.is_str v); cbn in *; auto. }
      apply existsb_exists in Hex. destruct Hex as (v & Hin & Hv).
      exists v. split; [exact Hin|]. destruct (Spec.is_str v); [discriminate|reflexivity].
    + intros _ rt. unfold run_command. cbn [str_items].
      rewrite (str_items_raise command E). reflexivity.
Qed.

Lemma run_strings_default (rt : Runtime) (args : list string) :
  run_command rt (map PyStr args) None =
  match subprocess_run rt ("pac" :: args) 30 with
  | Completed rc out err =>
      Ok {| success := rc =? 0; stdout := out; stderr := err;
            returncode := rc; command := String.concat " " ("pac" :: args) |}
  | TimeoutExpired =>
      Ok {| success := false; stdout := ""; stderr := "Command timed out";
            returncode := -1; command := String.concat " " ("pac" :: args) |}
  | ProcessError e => Raise e
  end.
Proof. rewrite run_command_default. apply run_command_strings. Qed.

(** What a listing or query method answers, by the outcome of its command. *)
Lemma decoding_method (rt : Runtime) (args : list string) (fallback : pyval) :
  (r <- run_command rt (map PyStr args) None ;;
   if success r then loads_or rt (stdout r) fallback else Ok fallback) =
  match subprocess_run rt ("pac" :: args) 30 with
  | Completed rc out err =>
      if rc =? 0 then loads_or rt out fallback else Ok fallback
  | TimeoutExpired => Ok fallback
  | ProcessError e => Raise e
  end.
Proof.
  rewrite run_strings_default.
  destruct (subprocess_run rt ("pac" :: args) 30) as [rc out err| |e];
    reflexivity.
Qed.

Lemma get_environments_by_outcome (rt : Runtime) :
  get_environments rt =
  match subprocess_run rt ["pac"; "org"; "list"; "--json"] 30 with
  | Completed rc out err =>
      if rc =? 0 then loads_or rt out (PyList []) else Ok (PyList [])
  | TimeoutExpired => Ok (PyList [])
  | ProcessError e => Raise e
  end.
Proof. exact (decoding_method rt ["org"; "list"; "--json"] (PyList [])). Qed.

Lemma get_solutions_by_outcome (rt : Runtime) :
  get_solutions rt =
  match subprocess_run rt ["pac"; "solution"; "list"; "--json"] 30 with
  | Completed rc out err =>
      if rc =? 0 then loads_or rt out (PyList []) else Ok (PyList [])
  | TimeoutExpired => Ok (PyList [])
  | ProcessError e => Raise e
  end.
Proof. exact (decoding_method rt ["solution"; "list"; "--json"] (PyList [])). Qed.

Lemma get_current_environment_by_outcome (rt : Runtime) :
  get_current_environment rt =
  match subprocess_run rt ["pac"; "org"; "who"; "--json"] 30 with
  | Completed rc out err =>
      if rc =? 0 then loads_or rt out PyNone else Ok PyNone
  | TimeoutExpired => Ok PyNone
  | ProcessError e => Raise e
  end.
Proof. exact (decoding_method rt ["org"; "who"; "--json"] PyNone). Qed.

Lemma failed_fallback (rt : Runtime) (outcome : ProcOutcome) (fallback : pyval) :
  Spec.failed outcome ->
  match outcome with
  | Completed rc out err =>
      if rc =? 0 then loads_or rt out fallback else Ok fallback
  | TimeoutExpired => Ok fallback
  | ProcessError e => Raise e
  end = Ok fallback.
Proof.
  intros [->|(rc & out & err & Hrc & ->)].
  - reflexivity.
  - apply Z.eqb_neq in Hrc. rewrite Hrc. reflexivity.
Qed.

(** X12.  When the listing command fails, by a timeout or a non-zero exit code,
    [get_environments] and [get_solutions] return the empty list whatever
    the command printed and whatever the decoder would make of it. *)
Theorem failed_listing_gives_empty (rt : Runtime) :
  (Spec.failed (subprocess_run rt ["pac"; "org"; "list"; "--json"] 30) ->
   get_environments rt = Ok (PyList [])) /\
  (Spec.failed (subprocess_run rt ["pac"; "solution"; "list"; "--json"] 30) ->
   get_solutions rt = Ok (PyList [])).
Proof.
  split; intros H.
  - rewrite get_environments_by_outcome. apply failed_fallback. exact H.
  - rewrite get_solutions_by_outcome. apply failed_fallback. exact H.
Qed.

Lemma failed_listing_gives_empty_witness :
  get_environments (Examples.exits 3 "[{}, 7]") = Ok (PyList []).
Proof.
  apply (proj1 (failed_listing_gives_empty (Examples.exits 3 "[{}, 7]"))).
  right. exists 3, "[{}, 7]", "". split; [discriminate | reflexivity].
Defined.

(** X13.  [get_current_environment] of the facade answers [None] when the query
    fails and when it prints what is not JSON, and the decoded value when
    it exits with code 0 and prints JSON; so [None] is also the answer to
    a printed [null]. *)
Theorem current_environment_query (rt : Runtime) :
  (Spec.failed (subprocess_run rt ["pac"; "org"; "who"; "--json"] 30) ->
   get_current_environment rt = Ok PyNone) /\
  (forall out err : string,
      subprocess_run rt ["pac"; "org"; "who"; "--json"] 30 = Completed 0 out err ->
      (json_loads rt out = Raise JSONDecodeError ->
       get_current_environment rt = Ok PyNone) /\
      (forall v : pyval,
          json_loads rt out = Ok v -> get_current_environment rt = Ok v) /\
      (forall e : exn,
          json_loads rt out = Raise e -> e <> JSONDecodeError ->
          get_current_environment rt = Raise e)).
Proof.
  split.
  - intros H. rewrite get_current_environment_by_outcome.
    apply failed_fallback. exact H.
  - intros out err Hrun. rewrite get_current_environment_by_outcome, Hrun.
    cbn. unfold loads_or. repeat split.
    + intros ->. reflexivity.
    + intros v ->. reflexivity.
    + intros e -> Hne. destruct e; try reflexivity. contradiction.
Qed.

Lemma current_environment_query_witness :
  get_current_environment (Examples.exits 0 "[{}, 7]")
  = Ok (PyList [PyDict []; PyInt 7]).
Proof.
  apply (proj1 (proj2 (proj2 (current_environment_query
                                (Examples.exits 0 "[{}, 7]"))
                             "[{}, 7]" "" eq_refl))).
  reflexivity.
Defined.

End MoreWrapperFacts.

Section ProbeAndBooleans.

Import PACCLIWrapper.

Lemma reporting_method (rt : Runtime) (args : list string) :
  (r <- run_command rt (map PyStr args) None ;;
   if success r then Ok true else Ok false) =
  Spec.reported (subprocess_run rt ("pac" :: args) 30).
Proof.
  rewrite run_command_default. apply reported_run.
Qed.

(** X14.  When starting the process raises, every method of the facade raises
    the same exception: none of them absorbs it. *)
Theorem facade_raises_what_start_raises (rt : Runtime) (e : exn) :
  (forall (args : list string) (timeout : Z),
      subprocess_run rt args timeout = ProcessError e) ->
  get_environments rt = Raise e /\
  get_solutions rt = Raise e /\
  get_current_environment rt = Raise e /\
  authenticate rt = Raise e /\
  (forall u : string, select_environment rt (PyStr u) = Raise e) /\
  (forall (n p : string) (managed : bool),
      export_solution rt n p managed = Raise e) /\
  (forall (p : string) (publish : bool),
      import_solution rt p publish = Raise e).
Proof.
  intros H. repeat split.
  - rewrite get_environments_by_outcome, H. reflexivity.
  - rewrite get_solutions_by_outcome, H. reflexivity.
  - rewrite get_current_environment_by_outcome, H. reflexivity.
  - unfold authenticate.
    pose proof (reporting_method rt ["auth"; "create"]) as E.
    cbn [map] in E. rewrite E, H. reflexivity.
  - intros u. unfold select_environment.
    pose proof (reporting_method rt ["org"; "select"; "--environment"; u]) as E.
    cbn [map] in E. rewrite E, H. reflexivity.
  - intros n p managed. unfold export_solution.
    rewrite reported_run, H. reflexivity.
  - intros p publish. unfold import_solution.
    rewrite reported_run, H. reflexivity.
Qed.

Lemma facade_raises_what_start_raises_witness :
  get_environments Examples.missing = Raise FileNotFoundError /\
  authenticate Examples.missing = Raise FileNotFoundError.
Proof.
  destruct (facade_raises_what_start_raises
              Examples.missing FileNotFoundError (fun _ _ => eq_refl))
    as (He & _ & _ & Ha & _).
  split; [exact He | exact Ha].
Defined.

(** X15.  [authenticate] and the facade's [select_environment] answer true
    exactly when their command, run with the default timeout of 30
    seconds, exits with code 0; a timeout and a non-zero exit code give
    false, and what the command printed plays no part.  A URL that is not a
    string raises [TypeError] on every platform. *)
Theorem boolean_methods_report_exit_code (rt : Runtime) :
  authenticate rt =
    Spec.reported (subprocess_run rt ["pac"; "auth"; "create"] 30) /\
  (forall u : string,
      select_environment rt (PyStr u) =
        Spec.reported
          (subprocess_run rt ["pac"; "org"; "select"; "--environment"; u] 30)) /\
  (forall v : pyval,
      Spec.is_str v = false -> select_environment rt v = Raise TypeError) /\
  (forall outcome : ProcOutcome,
      Spec.reported outcome = Ok true <->
      exists out err : string, outcome = Completed 0 out err).
Proof.
  repeat split.
  - exact (reporting_method rt ["auth"; "create"]).
  - intros u. exact (reporting_method rt ["org"; "select"; "--environment"; u]).
  - intros v Hv. unfold select_environment, run_command.
    destruct v; try discriminate; reflexivity.
  - destruct outcome as [rc out err| |e]; cbn; try discriminate.
    destruct (rc =? 0) eqn:E; [|discriminate].
    apply Z.eqb_eq in E. subst rc. intros _. eauto.
  - intros (out & err & ->). reflexivity.
Qed.

(** X16.  The wrapper is constructed exactly when the probe
    [pac --version], run with a timeout of 10 seconds, exits with code 0.
    The constructor raises [PACCLIError] exactly when the probe exits with
    another code, runs into the timeout, or cannot be started because the
    executable is missing; any other exception of starting the process
    goes through as it is. *)
Theorem wrapper_constructed_iff_probe_succeeds (rt : Runtime) :
  (_check_pac_installation rt = Constructed <->
   exists out err : string,
     subprocess_run rt ["pac"; "--version"] 10 = Completed 0 out err) /\
  ((exists message : string, _check_pac_installation rt = PACCLIError message) <->
   Spec.failed (subprocess_run rt ["pac"; "--version"] 10) \/
   subprocess_run rt ["pac"; "--version"] 10 = ProcessError FileNotFoundError) /\
  (forall e : exn,
      _check_pac_installation rt = Propagated e <->
      subprocess_run rt ["pac"; "--version"] 10 = ProcessError e /\
      e <> FileNotFoundError).
Proof.
  unfold _check_pac_installation, Spec.failed.
  destruct (subprocess_run rt ["pac"; "--version"] 10) as [rc out err| |e];
    [destruct (rc =? 0) eqn:E;
     [apply Z.eqb_eq in E; subst rc | apply Z.eqb_neq in E]
    | | destruct e];
    repeat split; intros;
    repeat match goal with
           | H : exists _, _ |- _ => destruct H
           | H : _ /\ _ |- _ => destruct H
           | H : _ \/ _ |- _ => destruct H
           end;
    try discriminate; try congruence; eauto 8.
Qed.

End ProbeAndBooleans.

(* ================================================================== *)
(** ** More of the environment directory *)
(* ================================================================== *)

Section MoreRefresh.

Import Environment.

Lemma wrapper_listing_fallback (rt : Runtime) :
  Spec.failed (subprocess_run rt ["pac"; "org"; "list"; "--json"] 30) \/
  (exists out err : string,
      subprocess_run rt ["pac"; "org"; "list"; "--json"] 30 = Completed 0 out err /\
      json_loads rt out = Raise JSONDecodeError) ->
  cli_get_environments (wrapper_cli rt) = Ok (PyList []).
Proof.
  cbn. rewrite get_environments_by_outcome. intros [H|(out & err & -> & Hbad)].
  - apply failed_fallback. exact H.
  - cbn. unfold PACCLIWrapper.loads_or. rewrite Hbad. reflexivity.
Qed.

(** X1.  On the wrapper, a listing command that fails (a timeout, a
    non-zero exit code), or that exits with code 0 and prints a text on
    which [json.loads] raises [JSONDecodeError], makes
    [refresh_environments] return true and replace the catalog by an empty
    one: the facade answers such a command with an empty list, which
    refreshes like any other.  When the command exits with code 0 and
    [json.loads] raises another exception on its output, the facade call
    raises, and the refresh returns false and leaves the manager as it
    was. *)
Theorem refresh_after_failed_listing
        (rt : Runtime) (self : EnvironmentManager) :
  (Spec.failed (subprocess_run rt ["pac"; "org"; "list"; "--json"] 30) \/
   (exists out err : string,
       subprocess_run rt ["pac"; "org"; "list"; "--json"] 30 = Completed 0 out err /\
       json_loads rt out = Raise JSONDecodeError) ->
   refresh_environments rt (wrapper_cli rt) self = (Ok true, Spec.replaced self []) /\
   get_environments (snd (refresh_environments rt (wrapper_cli rt) self)) = []) /\
  (forall (out err : string) (e : exn),
      subprocess_run rt ["pac"; "org"; "list"; "--json"] 30 = Completed 0 out err ->
      json_loads rt out = Raise e -> e <> JSONDecodeError ->
      refresh_environments rt (wrapper_cli rt) self = (Ok false, self)).
Proof.
  split.
  - intros H. rewrite refresh_environments_cases.
    rewrite (wrapper_listing_fallback rt H). split; reflexivity.
  - intros out err e Hrun Hbad Hne. rewrite refresh_environments_cases.
    cbn [cli_get_environments wrapper_cli].
    rewrite get_environments_by_outcome, Hrun. cbn.
    unfold PACCLIWrapper.loads_or. rewrite Hbad.
    destruct e; try reflexivity. contradiction.
Qed.

Lemma refresh_after_failed_listing_witness :
  refresh_environments Examples.hangs (wrapper_cli Examples.hangs)
    (Examples.manager [Examples.prod_eu; Examples.dev_us])
  = (Ok true,
     Spec.replaced (Examples.manager [Examples.prod_eu; Examples.dev_us]) []).
Proof.
  apply (proj1 (refresh_after_failed_listing Examples.hangs
                  (Examples.manager [Examples.prod_eu; Examples.dev_us]))).
  left. left. reflexivity.
Defined.

Lemma make_environment_ok_iff (rt : Runtime) (env : pyval) :
  match make_environment rt env with
  | Ok _ => exists entries, env = PyDict entries
  | Raise e => e = AttributeError /\ forall entries, env <> PyDict entries
  end.
Proof.
  destruct env; cbn; try (split; [reflexivity | discriminate]).
  eexists. reflexivity.
Qed.

Lemma all_objects (rt : Runtime) (elems : list pyval) :
  forallb (fun env => match make_environment rt env with
                      | Ok _ => true
                      | Raise _ => false
                      end) elems = true <->
  exists records : list (list (string * pyval)), elems = map PyDict records.
Proof.
  induction elems as [|env rest IH]; cbn.
  - split; [intros _; exists []; reflexivity | reflexivity].
  - rewrite andb_true_iff, IH. split.
    + intros [Hok [records ->]].
      pose proof (make_environment_ok_iff rt env) as Hm.
      destruct (make_environment rt env); [|discriminate].
      destruct Hm as [entries ->]. exists (entries :: records). reflexivity.
    + intros [records H]. destruct records as [|entries records];
        [discriminate|]. cbn in H. injection H as -> ->.
      split; [reflexivity | eexists; reflexivity].
Qed.

(** X2.  [refresh_environments] returns true exactly when the facade call
    returns a list of objects, an empty object or an empty string; for any
    other value, and when the call raises, it returns false. *)
Theorem refresh_succeeds_iff
        (rt : Runtime) (cli : PacCli) (self : EnvironmentManager) :
  fst (refresh_environments rt cli self) = Ok true <->
  exists env_data : pyval,
    cli_get_environments cli = Ok env_data /\
    ((exists records : list (list (string * pyval)),
         env_data = PyList (map PyDict records)) \/
     env_data = PyDict [] \/ env_data = PyStr "").
Proof.
  rewrite refresh_environments_cases.
  destruct (cli_get_environments cli) as [env_data|e]; cbn.
  - unfold Spec.convertible. split.
    + intros H. exists env_data. split; [reflexivity|].
      destruct env_data as [| | | |s|items|entries]; cbn in H;
        try discriminate.
      * right. right. destruct s; [reflexivity|]. cbn in H. discriminate.
      * left. injection H as H. apply all_objects in H.
        destruct H as [records ->]. eauto.
      * right. left. destruct entries as [|[k v] rest]; [reflexivity|].
        cbn in H. discriminate.
    + intros (v & Hv & Hshape). injection Hv as <-.
      destruct Hshape as [[records ->]|[->| ->]]; cbn; try reflexivity.
      f_equal. apply all_objects. eauto.
  - split; [discriminate|]. intros (v & Hv & _). discriminate.
Qed.

(** X3.  Once the facade call has returned, what [refresh_environments] answers
    and what the catalog then holds do not depend on the manager it
    started from: nothing of the old catalog is merged in.  Refreshing
    again with the same answer gives the same contents in yet another
    list object. *)
Theorem refresh_replaces_wholesale
        (rt : Runtime) (cli : PacCli) (env_data : pyval)
        (self other : EnvironmentManager) :
  cli_get_environments cli = Ok env_data ->
  fst (refresh_environments rt cli self)
    = fst (refresh_environments rt cli other) /\
  get_environments (snd (refresh_environments rt cli self))
    = get_environments (snd (refresh_environments rt cli other)) /\
  get_environments
    (snd (refresh_environments rt cli (snd (refresh_environments rt cli self))))
    = get_environments (snd (refresh_environments rt cli self)) /\
  list_id (_environments
    (snd (refresh_environments rt cli (snd (refresh_environments rt cli self)))))
    = S (S (list_id (_environments self))).
Proof.
  intros H. repeat (rewrite refresh_environments_cases, H; cbn).
  repeat split.
Qed.

Lemma refresh_replaces_wholesale_witness :
  get_environments
    (snd (refresh_environments Examples.plain Examples.listing
            (Examples.manager [Examples.prod_eu])))
  = get_environments
      (snd (refresh_environments Examples.plain Examples.listing init)).
Proof.
  apply (refresh_replaces_wholesale Examples.plain Examples.listing
           (PyList [Examples.stamped "dev-us" "not-a-date";
                    Examples.stamped "prod-eu" "2024-01-15T10:30:00Z"])
           (Examples.manager [Examples.prod_eu]) init).
  reflexivity.
Defined.

(** X4.  A successful selection is what [get_current_environment] returns from
    then on: a later refresh, whatever it loads, and a later selection that
    does not succeed leave it in place, and the selection itself leaves
    the catalog alone. *)
Theorem selection_survives
        (rt : Runtime) (cli later : PacCli)
        (chosen other : PowerPlatformEnvironment) (self : EnvironmentManager) :
  cli_select_environment cli (url chosen) = Ok true ->
  get_current_environment (snd (select_environment cli chosen self))
    = Some chosen /\
  get_environments (snd (select_environment cli chosen self))
    = get_environments self /\
  get_current_environment
    (snd (refresh_environments rt later
            (snd (select_environment cli chosen self))))
    = Some chosen /\
  (cli_select_environment later (url other) <> Ok true ->
   get_current_environment
     (snd (select_environment later other
             (snd (select_environment cli chosen self))))
     = Some chosen).
Proof.
  intros H. rewrite (select_environment_cases cli chosen self), H. cbn.
  repeat split.
  - rewrite refresh_environments_cases.
    destruct (cli_get_environments later); reflexivity.
  - intros Hne. rewrite select_environment_cases.
    destruct (cli_select_environment later (url other)) as [[|]|e];
      try reflexivity.
    contradiction.
Qed.

Lemma selection_survives_witness :
  get_current_environment
    (snd (refresh_environments Examples.plain Examples.listing
            (snd (select_environment Examples.listing Examples.prod_eu init))))
  = Some Examples.prod_eu.
Proof.
  apply (selection_survives Examples.plain Examples.listing Examples.listing
           Examples.prod_eu Examples.dev_us init).
  reflexivity.
Defined.

End MoreRefresh.

Section MoreTimestamps.

Import Environment.

Lemma try_formats_sound (rt : Runtime) (s : string) (fmts : list string)
      (dt : datetime) :
  try_formats rt s fmts = Ok (Some dt) ->
  exists fmt : string, In fmt fmts /\ strptime rt s fmt = Ok dt.
Proof.
  induction fmts as [|fmt rest IH]; cbn.
  - discriminate.
  - destruct (strptime rt s fmt) as [dt'|e] eqn:E.
    + intros H. injection H as <-. exists fmt. auto.
    + destruct e; try discriminate.
      intros H. destruct (IH H) as (f & Hin & Hf). exists f. auto.
Qed.

(** X10.  A timestamp [_parse_datetime] returns is what [strptime] made of a
    non-empty string under one of the three formats; a value that is not a
    string, and the empty string, give none on every platform. *)
Theorem parse_datetime_sound (rt : Runtime) (v : pyval) :
  (forall dt : datetime,
      _parse_datetime rt v = Some dt ->
      exists s : string,
        v = PyStr s /\ s <> ""%string /\
        exists fmt : string, In fmt formats /\ strptime rt s fmt = Ok dt) /\
  (Spec.is_str v = false \/ v = PyStr "" -> _parse_datetime rt v = None).
Proof.
  unfold _parse_datetime. split.
  - intros dt. destruct (truthy v) eqn:T; cbn [negb]; [|discriminate].
    destruct v as [| | | |s| |]; cbn [try_except]; try discriminate.
    destruct (try_formats rt s formats) as [[dt'|]|e] eqn:E;
      cbn; try discriminate.
    intros H. injection H as <-. exists s. split; [reflexivity|]. split.
    + intros ->. cbn in T. discriminate.
    + exact (try_formats_sound rt s formats dt' E).
  - intros [H| ->]; [|reflexivity].
    destruct (truthy v); cbn [negb]; [|reflexivity].
    destruct v; try discriminate; reflexivity.
Qed.

Lemma parse_datetime_sound_witness :
  exists s : string,
    PyStr "2024-01-15 10:30:00" = PyStr s /\ s <> ""%string /\
    exists fmt : string,
      In fmt formats /\
      strptime Examples.plain s fmt = Ok (mk_datetime 2024 1 15 10 30 0 0).
Proof.
  apply (proj1 (parse_datetime_sound Examples.plain
                  (PyStr "2024-01-15 10:30:00"))).
  vm_compute. reflexivity.
Defined.

End MoreTimestamps.

Section MoreSummary.

Import Environment.

Lemma sum_counts_bump (d : counts) (key : pyval) :
  Spec.sum_counts (counts_set d key (counts_get d key + 1))
    = Spec.sum_counts d + 1.
Proof.
  unfold Spec.sum_counts. induction d as [|[k n] rest IH]; cbn.
  - lia.
  - destruct (key_eqb k key); cbn; [lia|]. rewrite IH. lia.
Qed.

Lemma count_one_sum (d d' : counts) (key : pyval) :
  count_one d key = Ok d' -> Spec.sum_counts d' = Spec.sum_counts d + 1.
Proof.
  unfold count_one. destruct (check_hashable key); cbn; [|discriminate].
  intros H. injection H as <-. apply sum_counts_bump.
Qed.

Lemma summary_loop_sums (envs : list PowerPlatformEnvironment) :
  forall summary summary' : Summary,
    summary_loop envs summary = Ok summary' ->
    total summary' = total summary /\
    Spec.sum_counts (by_type summary')
      = Spec.sum_counts (by_type summary) + Z.of_nat (List.length envs) /\
    Spec.sum_counts (by_region summary')
      = Spec.sum_counts (by_region summary) + Z.of_nat (List.length envs) /\
    Spec.sum_counts (by_state summary')
      = Spec.sum_counts (by_state summary) + Z.of_nat (List.length envs).
Proof.
  induction envs as [|env rest IH]; intros summary summary'.
  - cbn. intros H. injection H as <-. repeat split; lia.
  - cbn [summary_loop]. unfold summary_step.
    destruct (count_one (by_type summary) _) as [t|] eqn:Et; cbn [bind];
      [|discriminate].
    destruct (count_one (by_region summary) _) as [r|] eqn:Er; cbn [bind];
      [|discriminate].
    destruct (count_one (by_state summary) _) as [s|] eqn:Es; cbn [bind];
      [|discriminate].
    intros H. destruct (IH _ _ H) as (Ht & Hty & Hre & Hst).
    cbn [total by_type by_region by_state List.length] in *.
    apply count_one_sum in Et, Er, Es.
    rewrite Nat2Z.inj_succ. repeat split; lia.
Qed.

(** X8.  In a summary that is returned, whatever the fields hold, the counts of
    each of the three mappings add up to the total, which is the number of
    environments: every environment is counted once by type, once by
    region and once by state. *)
Theorem summary_counts_add_up (self : EnvironmentManager) (summary : Summary) :
  get_environment_summary self = Ok summary ->
  total summary = Z.of_nat (List.length (get_environments self)) /\
  Spec.sum_counts (by_type summary) = total summary /\
  Spec.sum_counts (by_region summary) = total summary /\
  Spec.sum_counts (by_state summary) = total summary.
Proof.
  unfold get_environment_summary. fold (get_environments self). intros H.
  destruct (summary_loop_sums _ _ _ H) as (Ht & Hty & Hre & Hst).
  cbn in *. repeat split; lia.
Qed.

Lemma summary_counts_add_up_witness :
  Spec.sum_counts
    [(PyStr "Sandbox", 2); (PyStr "Production", 1); (PyStr "Unknown", 1)] = 4.
Proof.
  apply (proj1 (proj2 (summary_counts_add_up
                         (Examples.manager Examples.four)
                         {| total := 4;
                            by_type := [(PyStr "Sandbox", 2);
                                        (PyStr "Production", 1);
                                        (PyStr "Unknown", 1)];
                            by_region := [(PyStr "europe", 4)];
                            by_state := [(PyStr "Ready", 4)] |}
                         eq_refl))).
Defined.

Lemma count_one_ok_iff (d : counts) (v : pyval) :
  match count_one d (py_or v Unknown) with
  | Ok _ => Spec.unhashable_field v = false
  | Raise e => e = TypeError /\ Spec.unhashable_field v = true
  end.
Proof.
  unfold count_one, py_or, Unknown.
  destruct v as [| | | | |items|entries]; cbn;
    try match goal with |- context [if ?c then _ else _] => destruct c end;
    cbn; try reflexivity.
  - destruct items; cbn; auto.
  - destruct entries; cbn; auto.
Qed.

Lemma summary_loop_ok_iff (envs : list PowerPlatformEnvironment) :
  forall summary : Summary,
    match summary_loop envs summary with
    | Ok _ => Forall Spec.summarisable envs
    | Raise e => e = TypeError /\ ~ Forall Spec.summarisable envs
    end.
Proof.
  induction envs as [|env rest IH]; intros summary.
  - cbn. constructor.
  - cbn [summary_loop]. unfold summary_step.
    pose proof (count_one_ok_iff (by_type summary) (environment_type env)) as Ht.
    pose proof (count_one_ok_iff (by_region summary) (region env)) as Hr.
    pose proof (count_one_ok_iff (by_state summary) (state env)) as Hs.
    destruct (count_one (by_type summary) _) as [t|e]; cbn [bind].
    + destruct (count_one (by_region summary) _) as [r|e]; cbn [bind].
      * destruct (count_one (by_state summary) _) as [s|e]; cbn [bind].
        -- match goal with
           | |- context [summary_loop rest ?s0] => specialize (IH s0)
           end.
           destruct (summary_loop rest _) as [s'|e].
           ++ constructor; [repeat split; assumption | exact IH].
           ++ destruct IH as [-> Hn]. split; [reflexivity|].
              intros Hall. inversion Hall; subst. contradiction.
        -- destruct Hs as [-> Hs]. split; [reflexivity|].
           intros Hall. inversion Hall as [|? ? (_ & _ & H3) _]; subst.
           congruence.
      * destruct Hr as [-> Hr]. split; [reflexivity|].
        intros Hall. inversion Hall as [|? ? (_ & H2 & _) _]; subst.
        congruence.
    + destruct Ht as [-> Ht]. split; [reflexivity|].
      intros Hall. inversion Hall as [|? ? (H1 & _ & _) _]; subst.
      congruence.
Qed.

(** X9.  [get_environment_summary] returns a summary exactly when no
    environment has a non-empty list or object as its type, region or
    state; otherwise it raises [TypeError], which nothing in the method
    catches. *)
Theorem summary_raises_iff (self : EnvironmentManager) :
  ((exists summary : Summary, get_environment_summary self = Ok summary) <->
   Forall Spec.summarisable (get_environments self)) /\
  (forall e : exn, get_environment_summary self = Raise e -> e = TypeError).
Proof.
  unfold get_environment_summary. fold (get_environments self).
  match goal with
  | |- context [summary_loop _ ?s0] =>
      pose proof (summary_loop_ok_iff (get_environments self) s0) as H;
      destruct (summary_loop (get_environments self) s0) as [s|e]
  end.
  - split; [|discriminate]. split; [intros _; exact H | eauto].
  - destruct H as [-> Hn]. split.
    + split; [intros [s Hs]; discriminate | contradiction].
    + intros e H. injection H as <-. reflexivity.
Qed.

End MoreSummary.

Section MoreSearch.

Import Environment.

Lemma search_condition_cases (rt : Runtime) (query : string)
      (env : PowerPlatformEnvironment) :
  search_condition rt (str_lower rt query) env =
  if Spec.trips rt query env then Raise AttributeError
  else Ok (Spec.hits rt query env).
Proof.
  unfold search_condition, Spec.trips, Spec.hits, py_lower.
  destruct (name env) as [| | | |n| |]; cbn; try reflexivity.
  destruct (str_in (str_lower rt query) (str_lower rt n)); cbn;
    [reflexivity|].
  destruct (display_name env); reflexivity.
Qed.

Lemma comprehension_cases (rt : Runtime) (query : string)
      (envs : list PowerPlatformEnvironment) :
  comprehension envs (search_condition rt (str_lower rt query)) =
  if existsb (Spec.trips rt query) envs then Raise AttributeError
  else Ok (filter (Spec.hits rt query) envs).
Proof.
  induction envs as [|env rest IH]; cbn.
  - reflexivity.
  - rewrite search_condition_cases.
    destruct (Spec.trips rt query env); cbn; [reflexivity|].
    rewrite IH. destruct (existsb (Spec.trips rt query) rest); reflexivity.
Qed.

(** X5.  [search_environments] raises exactly when the catalog has an
    environment whose name is not a string, or whose name is a string
    without the query and whose display name is not a string; what it
    raises is [AttributeError].  Otherwise it returns, in catalog order,
    the environments whose name or display name is a string with the
    query; a matching name is enough, whatever the display name is. *)
Theorem search_raises_iff
        (rt : Runtime) (self : EnvironmentManager) (query : string) :
  ((exists e : exn, search_environments rt self query = Raise e) <->
   exists env : PowerPlatformEnvironment,
     In env (get_environments self) /\ Spec.trips rt query env = true) /\
  (forall e : exn,
      search_environments rt self query = Raise e -> e = AttributeError) /\
  (forall found : list PowerPlatformEnvironment,
      search_environments rt self query = Ok found ->
      found = filter (Spec.hits rt query) (get_environments self)) /\
  (forall (env : PowerPlatformEnvironment) (n : string),
      name env = PyStr n ->
      str_in (str_lower rt query) (str_lower rt n) = true ->
      Spec.trips rt query env = false /\ Spec.hits rt query env = true).
Proof.
  unfold search_environments. fold (get_environments self).
  rewrite comprehension_cases.
  destruct (existsb (Spec.trips rt query) (get_environments self)) eqn:E.
  - apply existsb_exists in E. repeat split; try discriminate; eauto.
    + intros e H. injection H as <-. reflexivity.
    + unfold Spec.trips. rewrite H, H0. reflexivity.
    + unfold Spec.hits. rewrite H, H0. reflexivity.
  - repeat split; try discriminate.
    + intros [e H]. discriminate.
    + intros (env & Hin & Ht).
      assert (existsb (Spec.trips rt query) (get_environments self) = true)
        as Hex by (apply existsb_exists; eauto).
      rewrite Hex in E. discriminate.
    + intros found H. injection H as <-. reflexivity.
    + unfold Spec.trips. rewrite H, H0. reflexivity.
    + unfold Spec.hits. rewrite H, H0. reflexivity.
Qed.

Lemma contains_trans (a b c : string) :
  Spec.contains a b -> Spec.contains b c -> Spec.contains a c.
Proof.
  intros (p & q & ->) (p' & q' & ->).
  exists (p' ++ p)%string, (q ++ q')%string.
  assert (forall x y z : string,
             ((x ++ y) ++ z = x ++ (y ++ z))%string) as assoc.
  { induction x as [|ch x IHx]; intros y z; cbn;
      [reflexivity | rewrite IHx; reflexivity]. }
  rewrite !assoc. reflexivity.
Qed.

(** X7.  A longer query finds no more: when the lowered first query occurs in
    the lowered second one and both searches return, every environment the
    second search finds is found by the first. *)
Theorem search_narrows
        (rt : Runtime) (self : EnvironmentManager) (short long : string)
        (found_short found_long : list PowerPlatformEnvironment) :
  Spec.contains (str_lower rt short) (str_lower rt long) ->
  search_environments rt self short = Ok found_short ->
  search_environments rt self long = Ok found_long ->
  incl found_long found_short.
Proof.
  unfold search_environments. fold (get_environments self).
  rewrite !comprehension_cases. intros Hc Hs Hl.
  destruct (existsb (Spec.trips rt short) (get_environments self)) eqn:Es;
    [discriminate|].
  destruct (existsb (Spec.trips rt long) (get_environments self)) eqn:El;
    [discriminate|].
  injection Hs as <-. injection Hl as <-.
  intros env Hin. apply filter_In in Hin. destruct Hin as [Hin Hhit].
  apply filter_In. split; [exact Hin|].
  assert (forall text,
             str_in (str_lower rt long) text = true ->
             str_in (str_lower rt short) text = true) as Hmono.
  { intros text H. apply str_in_spec. apply str_in_spec in H.
    exact (contains_trans _ _ _ Hc H). }
  unfold Spec.hits in *.
  destruct (name env) as [| | | |n| |]; try discriminate.
  apply orb_true_iff in Hhit. apply orb_true_iff.
  destruct Hhit as [H|H].
  - left. apply Hmono. exact H.
  - right. destruct (display_name env); try discriminate.
    apply Hmono. exact H.
Qed.

Lemma search_narrows_witness :
  incl [Examples.prod_eu] [Examples.prod_eu; Examples.dev_us].
Proof.
  apply (search_narrows Examples.plain
           (Examples.manager [Examples.prod_eu; Examples.dev_us])
           "-" "prod-"
           [Examples.prod_eu; Examples.dev_us] [Examples.prod_eu]).
  - exists "prod"%string, ""%string. reflexivity.
  - vm_compute. reflexivity.
  - vm_compute. reflexivity.
Defined.

End MoreSearch.

(* ================================================================== *)
(** ** File names *)
(* ================================================================== *)

Section FileNames.

Import Helpers.

Lemma replace_each_cons (chars : string) :
  forall (a : ascii) (s : string),
    replace_each chars (String a s)
      = String (Spec.scrub_each chars a) (replace_each chars s).
Proof.
  induction chars as [|c rest IH]; intros a s; cbn.
  - reflexivity.
  - rewrite IH. reflexivity.
Qed.

Lemma scrub_each_invalid (a : ascii) :
  Spec.scrub_each invalid_chars a = Spec.scrub a.
Proof. destruct a as [[] [] [] [] [] [] [] []]; reflexivity. Qed.

Lemma scrub_clean (a : ascii) : char_in (Spec.scrub a) invalid_chars = false.
Proof. destruct a as [[] [] [] [] [] [] [] []]; reflexivity. Qed.

Lemma replace_each_empty (chars : string) : replace_each chars "" = ""%string.
Proof. induction chars as [|c rest IH]; cbn; [reflexivity | exact IH]. Qed.

(** The nine replacements, one after the other, come to one pass that
    turns each of the nine characters into an underscore. *)
Lemma replace_each_one_pass (s : string) :
  replace_each invalid_chars s = Spec.map_string Spec.scrub s.
Proof.
  induction s as [|a s IH].
  - apply replace_each_empty.
  - rewrite replace_each_cons, scrub_each_invalid, IH. reflexivity.
Qed.

Lemma occurs_map_scrub (c : ascii) (s : string) :
  Spec.occurs c (Spec.map_string Spec.scrub s) ->
  char_in c invalid_chars = false.
Proof.
  unfold Spec.occurs. induction s as [|a s IH]; cbn.
  - contradiction.
  - intros [<-|H]; [apply scrub_clean | exact (IH H)].
Qed.

Lemma map_scrub_clean (s : string) :
  (forall c, Spec.occurs c s -> char_in c invalid_chars = false) ->
  Spec.map_string Spec.scrub s = s.
Proof.
  unfold Spec.occurs.
  induction s as [|a s IH]; cbn [Spec.map_string list_ascii_of_string In];
    intros H.
  - reflexivity.
  - unfold Spec.scrub at 1. rewrite (H a (or_introl eq_refl)).
    rewrite IH; [reflexivity|]. intros c Hc. apply H. right. exact Hc.
Qed.

Lemma occurs_lstrip (chars : string) (c : ascii) (s : string) :
  Spec.occurs c (lstrip chars s) -> Spec.occurs c s.
Proof.
  unfold Spec.occurs. induction s as [|a s IH]; cbn.
  - contradiction.
  - destruct (char_in a chars); cbn; auto.
Qed.

Lemma rstrip_cons (chars : string) (a : ascii) (s : string) :
  rstrip chars (String a s) = ""%string \/
  exists kept : string,
    rstrip chars (String a s) = String a kept /\
    (kept = rstrip chars s \/ (kept = ""%string /\ rstrip chars s = ""%string)).
Proof.
  cbn. destruct (rstrip chars s) as [|k kr].
  - destruct (char_in a chars); [left; reflexivity|].
    right. exists ""%string. auto.
  - right. eexists. split; [reflexivity|]. left. reflexivity.
Qed.

Lemma occurs_rstrip (chars : string) (c : ascii) (s : string) :
  Spec.occurs c (rstrip chars s) -> Spec.occurs c s.
Proof.
  unfold Spec.occurs. induction s as [|a s IH].
  - cbn. contradiction.
  - destruct (rstrip_cons chars a s) as [->|(kept & -> & [->|[-> _]])]; cbn.
    + contradiction.
    + intros [H|H]; auto.
    + intros [H|[]]; auto.
Qed.

Lemma lstrip_head (chars : string) (s : string) (c : ascii) (rest : string) :
  lstrip chars s = String c rest -> char_in c chars = false.
Proof.
  induction s as [|a s IH]; cbn.
  - discriminate.
  - destruct (char_in a chars) eqn:E; [exact IH|].
    intros H. injection H as <- _. exact E.
Qed.

Lemma rstrip_head (chars : string) (s : string) (c : ascii) (rest : string) :
  rstrip chars s = String c rest -> exists tail, s = String c tail.
Proof.
  destruct s as [|a s]; [discriminate|].
  destruct (rstrip_cons chars a s) as [->|(kept & -> & _)]; [discriminate|].
  intros H. injection H as <- _. eauto.
Qed.

Lemma rstrip_last (chars : string) (s : string) (c : ascii) :
  Spec.last_char (rstrip chars s) = Some c -> char_in c chars = false.
Proof.
  induction s as [|a s IH]; cbn.
  - discriminate.
  - destruct (rstrip chars s) as [|k kr].
    + destruct (char_in a chars) eqn:E; cbn; [discriminate|].
      intros H. injection H as <-. exact E.
    + exact IH.
Qed.

Lemma lstrip_id (chars : string) (s : string) :
  (forall c rest, s = String c rest -> char_in c chars = false) ->
  lstrip chars s = s.
Proof.
  destruct s as [|a s]; cbn; [reflexivity|].
  intros H. rewrite (H a s eq_refl). reflexivity.
Qed.

Lemma rstrip_id (chars : string) (s : string) :
  (forall c, Spec.last_char s = Some c -> char_in c chars = false) ->
  rstrip chars s = s.
Proof.
  induction s as [|a s IH]; [reflexivity|].
  intros H. cbn [rstrip]. destruct s as [|b s].
  - cbn. rewrite (H a eq_refl). reflexivity.
  - rewrite IH; [reflexivity|]. intros c Hc. apply H. exact Hc.
Qed.

(** What [sanitize_filename] returns, in one step. *)
Lemma sanitize_filename_unfold (filename : string) :
  sanitize_filename filename =
  if String.eqb (strip " ." (Spec.map_string Spec.scrub filename)) ""
  then "untitled"%string
  else strip " ." (Spec.map_string Spec.scrub filename).
Proof.
  unfold sanitize_filename. rewrite replace_each_one_pass. reflexivity.
Qed.

Lemma untitled_tidy : Spec.tidy "untitled".
Proof.
  repeat split.
  - discriminate.
  - unfold Spec.occurs. cbn. intros c H.
    repeat (destruct H as [<-|H]; [reflexivity|]). contradiction.
  - intros c rest H. injection H as <- _. reflexivity.
  - intros c H. injection H as <-. reflexivity.
Qed.

Lemma sanitize_filename_is_tidy (filename : string) :
  Spec.tidy (sanitize_filename filename).
Proof.
  rewrite sanitize_filename_unfold.
  destruct (String.eqb (strip " ." (Spec.map_string Spec.scrub filename)) "")
    eqn:E.
  - apply untitled_tidy.
  - apply String.eqb_neq in E. unfold strip in *. repeat split.
    + exact E.
    + intros c H. apply occurs_rstrip, occurs_lstrip in H.
      exact (occurs_map_scrub c filename H).
    + intros c rest H. destruct (rstrip_head _ _ _ _ H) as [tail Ht].
      exact (lstrip_head _ _ _ _ Ht).
    + intros c H. exact (rstrip_last _ _ _ H).
Qed.

Lemma sanitize_filename_keeps_tidy (filename : string) :
  Spec.tidy filename -> sanitize_filename filename = filename.
Proof.
  intros (Hne & Hclean & Hhead & Hlast).
  rewrite sanitize_filename_unfold, (map_scrub_clean filename Hclean).
  unfold strip. rewrite (lstrip_id " ." filename Hhead).
  rewrite (rstrip_id " ." filename Hlast).
  apply String.eqb_neq in Hne. rewrite Hne. reflexivity.
Qed.

(** X18.  Whatever it is given, [sanitize_filename] returns a name that is not
    empty, contains none of the nine characters it replaces, and neither
    begins nor ends with a space or a dot. *)
Theorem sanitize_filename_valid (filename : string) :
  sanitize_filename filename <> ""%string /\
  (forall c : ascii,
      Spec.occurs c (sanitize_filename filename) ->
      char_in c invalid_chars = false) /\
  (forall (c : ascii) (rest : string),
      sanitize_filename filename = String c rest ->
      char_in c " ." = false) /\
  (forall c : ascii,
      Spec.last_char (sanitize_filename filename) = Some c ->
      char_in c " ." = false).
Proof. exact (sanitize_filename_is_tidy filename). Qed.

(** X19.  [sanitize_filename] returns unchanged a name that is not empty, has
    none of the nine characters and no space or dot at either end; so
    sanitizing twice is sanitizing once. *)
Theorem sanitize_filename_idempotent (filename : string) :
  (Spec.tidy filename -> sanitize_filename filename = filename) /\
  sanitize_filename (sanitize_filename filename) = sanitize_filename filename.
Proof.
  split.
  - apply sanitize_filename_keeps_tidy.
  - apply sanitize_filename_keeps_tidy, sanitize_filename_is_tidy.
Qed.

Lemma sanitize_filename_idempotent_witness :
  sanitize_filename "Core v1.2.zip" = "Core v1.2.zip"%string.
Proof.
  apply (proj1 (sanitize_filename_idempotent "Core v1.2.zip")).
  repeat split.
  - discriminate.
  - unfold Spec.occurs. cbn. intros c H.
    repeat (destruct H as [<-|H]; [reflexivity|]). contradiction.
  - intros c rest H. injection H as <- _. reflexivity.
  - intros c H. injection H as <-. reflexivity.
Defined.

End FileNames.

(* ================================================================== *)
(** ** The configuration *)
(* ================================================================== *)

Section Configuration.

Import Helpers.

Lemma getitem_setitem (d : pydict) (a b : string) (v : pyval) :
  Spec.string_keyed d ->
  getitem (setitem d (PyStr a) v) (PyStr b) =
  if String.eqb a b then Some v else getitem d (PyStr b).
Proof.
  unfold Spec.string_keyed.
  induction 1 as [|[key w] rest [k0 Hk0] _ IH]; cbn in *.
  - reflexivity.
  - subst key. cbn. destruct (String.eqb k0 a) eqn:E0; cbn.
    + apply String.eqb_eq in E0. subst k0.
      destruct (String.eqb a b); reflexivity.
    + destruct (String.eqb k0 b) eqn:E1.
      * apply String.eqb_eq in E1. subst b.
        rewrite String.eqb_sym in E0. rewrite E0. reflexivity.
      * exact IH.
Qed.

Lemma setitem_string_keyed (d : pydict) (a : string) (v : pyval) :
  Spec.string_keyed d -> Spec.string_keyed (setitem d (PyStr a) v).
Proof.
  unfold Spec.string_keyed.
  induction 1 as [|[key w] rest [k0 Hk0] Hrest IH]; cbn in *.
  - repeat constructor. exists a. reflexivity.
  - subst key. cbn. destruct (String.eqb k0 a).
    + constructor; [exists k0; reflexivity | exact Hrest].
    + constructor; [exists k0; reflexivity | exact IH].
Qed.

Lemma entry_absent (entries : list (string * pyval)) (k : string) :
  ~ In k (map fst entries) -> Spec.entry entries k = None.
Proof.
  induction entries as [|[k0 v0] rest IH]; cbn; intros H.
  - reflexivity.
  - destruct (String.eqb k0 k) eqn:E.
    + apply String.eqb_eq in E. subst k0. exfalso. apply H. left. reflexivity.
    + apply IH. intros Hin. apply H. right. exact Hin.
Qed.

Lemma merge_entries_lookup (entries : list (string * pyval)) :
  forall d : pydict,
    Spec.string_keyed d ->
    NoDup (map fst entries) ->
    forall k : string,
      getitem (merge_entries d entries) (PyStr k) =
      match Spec.entry entries k with
      | Some v => Some v
      | None => getitem d (PyStr k)
      end.
Proof.
  induction entries as [|[k0 v0] rest IH]; intros d Hd Hnd k; cbn.
  - reflexivity.
  - inversion Hnd as [|? ? Hnin Hnd']; subst.
    rewrite (IH _ (setitem_string_keyed d k0 v0 Hd) Hnd' k).
    rewrite (getitem_setitem d k0 k v0 Hd).
    destruct (String.eqb k0 k) eqn:E.
    + apply String.eqb_eq in E. subst k0.
      rewrite (entry_absent rest k Hnin). reflexivity.
    + reflexivity.
Qed.

Lemma default_config_string_keyed : Spec.string_keyed default_config.
Proof. repeat constructor; eexists; reflexivity. Qed.

(** X20.  [load_config] returns the defaults when there is no file, and when
    opening or decoding the file raises [JSONDecodeError] or an
    [OSError]; any other exception of the read, and an exception of the
    existence test, goes through to the caller. *)
Theorem load_config_falls_back (fs : Files) (config_path : option string) :
  (path_exists fs config_path = Ok false ->
   load_config fs config_path = Ok default_config) /\
  (forall e : exn,
      path_exists fs config_path = Ok true ->
      load_json fs config_path = Raise e ->
      load_config fs config_path =
        if caught e then Ok default_config else Raise e) /\
  (forall e : exn,
      path_exists fs config_path = Raise e ->
      load_config fs config_path = Raise e) /\
  (forall e : exn,
      caught e = true <->
      e = JSONDecodeError \/ e = FileNotFoundError \/
      e = PermissionError \/ e = OSError).
Proof.
  unfold load_config. repeat split.
  - intros ->. reflexivity.
  - intros e -> ->. cbn. destruct (caught e); reflexivity.
  - intros e ->. reflexivity.
  - destruct e; cbn; intros H; try discriminate; auto.
  - intros [->|[->|[->| ->]]]; reflexivity.
Qed.

Lemma load_config_falls_back_witness :
  load_config Examples.no_settings None = Ok default_config.
Proof.
  apply (proj1 (load_config_falls_back Examples.no_settings None)).
  reflexivity.
Defined.

(** X21.  A settings file that holds valid JSON other than an object is
    not absorbed: for [null], a boolean or a number [load_config] raises
    [TypeError], for a string that is not empty [ValueError], and for an
    array whose first element is [null], a boolean or a number
    [TypeError].  The empty string and the empty array change nothing:
    the defaults are returned. *)
Theorem load_config_needs_an_object
        (fs : Files) (config_path : option string) (v : pyval) :
  path_exists fs config_path = Ok true ->
  load_json fs config_path = Ok v ->
  (Spec.scalar v = true -> load_config fs config_path = Raise TypeError) /\
  (forall (c : ascii) (s : string),
      v = PyStr (String c s) -> load_config fs config_path = Raise ValueError) /\
  (forall (item : pyval) (rest : list pyval),
      v = PyList (item :: rest) -> Spec.scalar item = true ->
      load_config fs config_path = Raise TypeError) /\
  (v = PyStr "" \/ v = PyList [] ->
   load_config fs config_path = Ok default_config).
Proof.
  intros He Hl. unfold load_config. rewrite He, Hl. cbn [bind].
  repeat split.
  - intros Hv. destruct v; try discriminate; reflexivity.
  - intros c s ->. reflexivity.
  - intros item rest -> Hitem. destruct item; try discriminate; reflexivity.
  - intros [->| ->]; reflexivity.
Qed.

Lemma load_config_needs_an_object_witness :
  load_config
    {| path_exists := fun _ => Ok true; load_json := fun _ => Ok (PyInt 5) |}
    None
  = Raise TypeError.
Proof.
  apply (proj1 (load_config_needs_an_object
                  {| path_exists := fun _ => Ok true;
                     load_json := fun _ => Ok (PyInt 5) |}
                  None (PyInt 5) eq_refl eq_refl)).
  reflexivity.
Defined.

(** X22.  When the settings file holds a JSON object, [load_config] returns the
    defaults with every top-level key of the file replaced by the file's
    value as a whole, and the other keys at their defaults: the merge is
    not recursive, so an option the file leaves out of a section it
    mentions is gone. *)
Theorem load_config_merges_top_level
        (fs : Files) (config_path : option string)
        (entries : list (string * pyval)) :
  path_exists fs config_path = Ok true ->
  load_json fs config_path = Ok (PyDict entries) ->
  NoDup (map fst entries) ->
  exists config : pydict,
    load_config fs config_path = Ok config /\
    forall k : string,
      getitem config (PyStr k) =
      match Spec.entry entries k with
      | Some v => Some v
      | None => getitem default_config (PyStr k)
      end.
Proof.
  intros He Hl Hnd. unfold load_config. rewrite He, Hl. cbn [bind update].
  eexists. split; [reflexivity|].
  exact (merge_entries_lookup entries default_config
           default_config_string_keyed Hnd).
Qed.

Lemma load_config_merges_top_level_witness :
  exists config : pydict,
    load_config Examples.settings None = Ok config /\
    getitem config (PyStr "pac_cli") = Some (PyDict [("timeout", PyInt 60)]) /\
    getitem config (PyStr "ui") = getitem default_config (PyStr "ui").
Proof.
  destruct (load_config_merges_top_level Examples.settings None
              [("pac_cli", PyDict [("timeout", PyInt 60)])]
              eq_refl eq_refl)
    as (config & Hc & Hk).
  - repeat constructor. intros [].
  - exists config. split; [exact Hc|]. split.
    + exact (Hk "pac_cli"%string).
    + exact (Hk "ui"%string).
Defined.

End Configuration.

(* ================================================================== *)
(** ** Searching what a refresh loaded *)
(* ================================================================== *)

Section SearchAfterRefresh.

Import Environment.

Lemma dict_get_entry (entries : list (string * pyval)) (key : string)
      (default : pyval) :
  dict_get entries key default =
  match Spec.entry entries key with
  | Some v => v
  | None => default
  end.
Proof.
  induction entries as [|[k v] rest IH]; cbn.
  - reflexivity.
  - destruct (String.eqb k key); [reflexivity | exact IH].
Qed.

Lemma refreshed_catalog
      (rt : Runtime) (cli : PacCli) (self : EnvironmentManager)
      (records : list (list (string * pyval))) :
  cli_get_environments cli = Ok (PyList (map PyDict records)) ->
  get_environments (snd (refresh_environments rt cli self))
    = map (Spec.environment_of rt) records.
Proof.
  intros H. rewrite (refresh_records rt cli self records H). reflexivity.
Qed.

(** X6.  A field of a loaded record is the record's value under the field's
    key, whatever that value is, and the empty string only when the key is
    missing.  So after a refresh from a list of records, a search returns
    when every name and display name the records give is a string, and
    raises [AttributeError] when some record gives a name that is not
    one, a [null] for instance. *)
Theorem search_after_refresh
        (rt : Runtime) (cli : PacCli) (self : EnvironmentManager)
        (records : list (list (string * pyval))) (query : string) :
  cli_get_environments cli = Ok (PyList (map PyDict records)) ->
  (forall entries : list (string * pyval),
      name (Spec.environment_of rt entries) =
        match Spec.entry entries "EnvironmentName" with
        | Some v => v
        | None => PyStr ""
        end /\
      display_name (Spec.environment_of rt entries) =
        match Spec.entry entries "FriendlyName" with
        | Some v => v
        | None => PyStr ""
        end) /\
  ((forall (entries : list (string * pyval)) (v : pyval),
       In entries records ->
       Spec.entry entries "EnvironmentName" = Some v \/
       Spec.entry entries "FriendlyName" = Some v ->
       Spec.is_str v = true) ->
   exists found : list PowerPlatformEnvironment,
     search_environments rt (snd (refresh_environments rt cli self)) query
       = Ok found) /\
  ((exists (entries : list (string * pyval)) (v : pyval),
       In entries records /\
       Spec.entry entries "EnvironmentName" = Some v /\
       Spec.is_str v = false) ->
   search_environments rt (snd (refresh_environments rt cli self)) query
     = Raise AttributeError).
Proof.
  intros Hcli. split; [|split].
  - intros entries. cbn. rewrite !dict_get_entry. split; reflexivity.
  - intros Hstr. unfold search_environments.
    fold (get_environments (snd (refresh_environments rt cli self))).
    rewrite (refreshed_catalog rt cli self records Hcli), comprehension_cases.
    destruct (existsb (Spec.trips rt query)
                (map (Spec.environment_of rt) records)) eqn:E;
      [|eexists; reflexivity].
    apply existsb_exists in E. destruct E as (env & Hin & Htrip).
    apply in_map_iff in Hin. destruct Hin as (entries & <- & Hin).
    unfold Spec.trips in Htrip. cbn in Htrip. rewrite !dict_get_entry in Htrip.
    pose proof (Hstr entries) as Hs.
    destruct (Spec.entry entries "EnvironmentName") as [n|].
    + specialize (Hs n Hin (or_introl eq_refl)) as Hn.
      destruct n; try discriminate.
      destruct (str_in _ _); [discriminate|].
      destruct (Spec.entry entries "FriendlyName") as [d|].
      * specialize (Hs d Hin (or_intror eq_refl)).
        destruct d; discriminate.
      * discriminate.
    + destruct (str_in _ _); [discriminate|].
      destruct (Spec.entry entries "FriendlyName") as [d|].
      * specialize (Hs d Hin (or_intror eq_refl)).
        destruct d; discriminate.
      * discriminate.
  - intros (entries & v & Hin & Hentry & Hv). unfold search_environments.
    fold (get_environments (snd (refresh_environments rt cli self))).
    rewrite (refreshed_catalog rt cli self records Hcli), comprehension_cases.
    assert (existsb (Spec.trips rt query)
              (map (Spec.environment_of rt) records) = true) as ->;
      [|reflexivity].
    apply existsb_exists. exists (Spec.environment_of rt entries). split.
    + apply in_map. exact Hin.
    + unfold Spec.trips. cbn. rewrite dict_get_entry, Hentry.
      destruct v; try reflexivity. discriminate.
Qed.

Lemma search_after_refresh_witness :
  search_environments Examples.plain
    (snd (refresh_environments Examples.plain
            {| cli_get_environments :=
                 Ok (PyList (map PyDict [[("EnvironmentName", PyNone)]]));
               cli_select_environment := fun _ => Ok true |}
            init))
    "prod"
  = Raise AttributeError.
Proof.
  apply (proj2 (proj2 (search_after_refresh Examples.plain
                         {| cli_get_environments :=
                              Ok (PyList (map PyDict
                                            [[("EnvironmentName", PyNone)]]));
                            cli_select_environment := fun _ => Ok true |}
                         init [[("EnvironmentName", PyNone)]] "prod"
                         eq_refl))).
  exists [("EnvironmentName", PyNone)], PyNone.
  split; [left; reflexivity|]. split; reflexivity.
Defined.

End SearchAfterRefresh.
